(** * Vehicle routing service: the [optimize] request handler

    A shallow embedding of [src/main.py].  The handler reads a request
    (jobs, drivers, travel-time matrix), states a pickup-and-delivery routing
    problem through the interface of a constraint-solving library, asks that
    library for an assignment and turns the assignment into per-driver routes.

    The file has three layers:
    - [Py]: the Python behaviour the handler relies on (list indexing,
      exceptions, a loop that may not end);
    - [pywrapcp]: the interface of the routing library as the handler uses
      it: the calls that state the problem are recorded in a [RoutingModel],
      and [satisfies] says when an assignment is a solution of a recorded
      model;
    - the handler itself, inside a section whose variables are the two
      library entry points that compute something: the index manager's
      constructor and [SolveWithParameters]. *)

From Stdlib Require Import ZArith List String Bool Lia PeanoNat.
Import ListNotations.
Local Open Scope Z_scope.

(* ------------------------------------------------------------------ *)
(** ** Python values and control *)

Module Py.

(** What running a piece of Python gives: a value, an exception carrying
    its message, or no answer within the steps allowed (a [while] loop
    is unrolled [fuel] times). *)
Inductive Outcome (A : Type) : Type :=
| Returned (a : A)
| Raised (e : string)
| OutOfFuel.
Arguments Returned {A} a.
Arguments Raised {A} e.
Arguments OutOfFuel {A}.

Definition bind {A B : Type} (c : Outcome A) (k : A -> Outcome B) : Outcome B :=
  match c with
  | Returned a => k a
  | Raised e => Raised e
  | OutOfFuel => OutOfFuel
  end.

(** [try: c  except Exception as e: h(str(e))] *)
Definition try_except {A : Type} (c : Outcome A) (h : string -> A) : Outcome A :=
  match c with
  | Returned a => Returned a
  | Raised e => Returned (h e)
  | OutOfFuel => OutOfFuel
  end.

(** [l[i]] on a list: a negative index counts from the end, and an index
    outside [-len(l), len(l))] raises IndexError. *)
Definition getitem {A : Type} (l : list A) (i : Z) : Outcome A :=
  let n := Z.of_nat (List.length l) in
  let k := if i <? 0 then i + n else i in
  if (0 <=? k) && (k <? n) then
    match nth_error l (Z.to_nat k) with
    | Some x => Returned x
    | None => Raised "list index out of range"
    end
  else Raised "list index out of range".

End Py.
Import Py.

Declare Scope py_scope.
Delimit Scope py_scope with py.
Notation "x <- c ;; k" := (Py.bind c (fun x => k))
  (at level 61, c at next level, right associativity) : py_scope.
Local Open Scope py_scope.

(* ------------------------------------------------------------------ *)
(** ** Request and response data *)

(** One entry of [data['jobs']]. *)
Record Job : Type := mkJob {
  pickup_node : Z;
  dropoff_node : Z;
  passengers : Z;
  pickup_time : Z
}.

(** One entry of [data['drivers']]. *)
Record Driver : Type := mkDriver {
  id : string;
  name : string;
  phone : string;
  start_idx : Z;
  end_idx : Z;
  capacity : Z;
  shift_start : Z;
  shift_end : Z
}.

(** [request.json], decoded: the three keys the handler reads, every field
    present and every number an integer.  (A missing key raises KeyError in
    the handler, which its [except] clause turns into a 500 response like
    any other exception; logging is left out.) *)
Record Request : Type := mkRequest {
  jobs : list Job;
  drivers : list Driver;
  time_matrix : list (list Z)
}.

(** [{'node': ..., 'arrival_time': ...}] *)
Record Stop : Type := mkStop {
  node : Z;
  arrival_time : Z
}.

(** [{'driver_id': ..., 'driver_name': ..., 'driver_phone': ..., 'route': ...}] *)
Record RouteEntry : Type := mkRouteEntry {
  driver_id : string;
  driver_name : string;
  driver_phone : string;
  route : list Stop
}.

(** The JSON body of a response. *)
Inductive Body : Type :=
| RoutesBody (routes : list RouteEntry)   (* {'routes': routes, 'status': 'success'} *)
| ErrorBody (error : string).             (* {'error': error} *)

(** A response: body and HTTP status. *)
Record Response : Type := mkResponse {
  body : Body;
  status_code : Z
}.

(* ------------------------------------------------------------------ *)
(** ** The routing library, as the handler sees it *)

Module pywrapcp.

(** The index manager: the correspondence between nodes of the matrix and
    the solver's indices, and every vehicle's start and end index. *)
Record RoutingIndexManager : Type := mkManager {
  GetNumberOfVehicles : nat;
  GetNumberOfIndices : nat;
  NodeToIndex : Z -> Z;
  IndexToNode : Z -> Z;
  GetStartIndex : nat -> Z;
  GetEndIndex : nat -> Z
}.

(** A transit callback: called by the library with solver indices. *)
Definition TransitCallback : Type := Z -> Z -> Outcome Z.

(** A cumulative dimension as [AddDimension] and
    [AddDimensionWithVehicleCapacity] declare it. *)
Record Dimension : Type := mkDimension {
  transit : TransitCallback;
  slack_max : Z;
  vehicle_capacity : nat -> Z;
  fix_start_cumul_to_zero : bool
}.

(** The constraints the handler posts with [routing.solver().Add]. *)
Inductive Constraint : Type :=
| VehicleVarEq (i j : Z)                  (* VehicleVar(i) == VehicleVar(j) *)
| CumulVarLe (dim : string) (i j : Z).    (* dim.CumulVar(i) <= dim.CumulVar(j) *)

(** The problem stated so far. *)
Record RoutingModel : Type := mkModel {
  manager : RoutingIndexManager;
  arc_cost_evaluator : option TransitCallback;
  dimensions : list (string * Dimension);
  cumul_ranges : list (string * Z * (Z * Z));
  pickup_delivery_pairs : list (Z * Z);
  solver_constraints : list Constraint
}.

Definition new_RoutingModel (m : RoutingIndexManager) : RoutingModel :=
  mkModel m None [] [] [] [].

Definition SetArcCostEvaluatorOfAllVehicles (r : RoutingModel) (cb : TransitCallback)
  : RoutingModel :=
  mkModel (manager r) (Some cb) (dimensions r) (cumul_ranges r)
          (pickup_delivery_pairs r) (solver_constraints r).

Definition AddDimension (r : RoutingModel) (cb : TransitCallback)
           (slack capacity : Z) (fix_start : bool) (dim : string) : RoutingModel :=
  mkModel (manager r) (arc_cost_evaluator r)
          (dimensions r ++ [(dim, mkDimension cb slack (fun _ => capacity) fix_start)])
          (cumul_ranges r) (pickup_delivery_pairs r) (solver_constraints r).

Definition AddDimensionWithVehicleCapacity (r : RoutingModel) (cb : Z -> Z)
           (slack : Z) (capacities : list Z) (fix_start : bool) (dim : string)
  : RoutingModel :=
  mkModel (manager r) (arc_cost_evaluator r)
          (dimensions r ++
             [(dim, mkDimension (fun i _ => Returned (cb i)) slack
                                (fun v => nth v capacities 0) fix_start)])
          (cumul_ranges r) (pickup_delivery_pairs r) (solver_constraints r).

(** [dim.CumulVar(i).SetRange(lo, hi)]: the variable's domain is cut down
    to [lo, hi]; earlier cuts stay. *)
Definition SetRange (r : RoutingModel) (dim : string) (i lo hi : Z) : RoutingModel :=
  mkModel (manager r) (arc_cost_evaluator r) (dimensions r)
          (cumul_ranges r ++ [(dim, i, (lo, hi))])
          (pickup_delivery_pairs r) (solver_constraints r).

Definition AddPickupAndDelivery (r : RoutingModel) (p d : Z) : RoutingModel :=
  mkModel (manager r) (arc_cost_evaluator r) (dimensions r) (cumul_ranges r)
          (pickup_delivery_pairs r ++ [(p, d)]) (solver_constraints r).

Definition solver_Add (r : RoutingModel) (c : Constraint) : RoutingModel :=
  mkModel (manager r) (arc_cost_evaluator r) (dimensions r) (cumul_ranges r)
          (pickup_delivery_pairs r) (solver_constraints r ++ [c]).

Definition Start (r : RoutingModel) (v : nat) : Z := GetStartIndex (manager r) v.
Definition End (r : RoutingModel) (v : nat) : Z := GetEndIndex (manager r) v.

(** The indices that have a successor. *)
Definition Size (r : RoutingModel) : Z :=
  Z.of_nat (GetNumberOfIndices (manager r)) - Z.of_nat (GetNumberOfVehicles (manager r)).

Definition IsEnd (r : RoutingModel) (i : Z) : bool := Size r <=? i.

(** Search parameters. *)
Inductive FirstSolutionStrategy : Type :=
| FS_AUTOMATIC | PATH_CHEAPEST_ARC.
Inductive LocalSearchMetaheuristic : Type :=
| LS_AUTOMATIC | GUIDED_LOCAL_SEARCH.

Record RoutingSearchParameters : Type := mkParams {
  first_solution_strategy : FirstSolutionStrategy;
  local_search_metaheuristic : LocalSearchMetaheuristic;
  time_limit_seconds : option Z
}.

Definition DefaultRoutingSearchParameters : RoutingSearchParameters :=
  mkParams FS_AUTOMATIC LS_AUTOMATIC None.

(** What the solver hands back: the value of every variable the handler
    reads with [solution.Value]. *)
Record Assignment : Type := mkAssignment {
  NextVar : Z -> Z;
  VehicleVar : Z -> Z;
  CumulVar : string -> Z -> Z
}.

(** *** Solutions of a model *)

(** The indices from [i] to the first end index, following [NextVar]. *)
Fixpoint path_from (fuel : nat) (r : RoutingModel) (a : Assignment) (i : Z)
  : option (list Z) :=
  match fuel with
  | O => None
  | S fuel' =>
      if IsEnd r i then Some [i]
      else option_map (cons i) (path_from fuel' r a (NextVar a i))
  end.

(** The path of vehicle [v]: no path has more stops than there are indices. *)
Definition path_of (r : RoutingModel) (a : Assignment) (v : nat) : option (list Z) :=
  path_from (GetNumberOfIndices (manager r)) r a (Start r v).

(** A dimension along the path [p] of vehicle [v]: every value lies in
    [0, capacity of v], and from one stop to the next the value grows by
    the transit plus a slack in [0, slack_max]. *)
Fixpoint dimension_along (d : Dimension) (cumul : Z -> Z) (v : nat) (p : list Z) : bool :=
  match p with
  | [] => true
  | i :: rest =>
      (0 <=? cumul i) && (cumul i <=? vehicle_capacity d v)
      && match rest with
         | [] => true
         | j :: _ =>
             match transit d i j with
             | Returned t =>
                 (cumul i + t <=? cumul j) && (cumul j <=? cumul i + t + slack_max d)
             | _ => false
             end
         end
      && dimension_along d cumul v rest
  end.

Definition dimension_holds (a : Assignment) (v : nat) (p : list Z)
           (nd : string * Dimension) : bool :=
  let cumul := CumulVar a (fst nd) in
  (if fix_start_cumul_to_zero (snd nd) then
     match p with
     | [] => true
     | i :: _ => cumul i =? 0
     end
   else true)
  && dimension_along (snd nd) cumul v p.

(** Vehicle [v] has a path from its start index to its end index, it is
    the vehicle of every index on that path, and every dimension holds
    along it. *)
Definition route_holds (r : RoutingModel) (a : Assignment) (v : nat) : bool :=
  match path_of r a v with
  | Some p =>
      (last p (Start r v) =? End r v)
      && forallb (fun i => VehicleVar a i =? Z.of_nat v) p
      && forallb (dimension_holds a v p) (dimensions r)
  | None => false
  end.

Definition vehicles (r : RoutingModel) : list nat :=
  seq 0 (GetNumberOfVehicles (manager r)).

Definition on_path (r : RoutingModel) (a : Assignment) (i : Z) (v : nat) : bool :=
  match path_of r a v with
  | Some p => existsb (Z.eqb i) p
  | None => false
  end.

(** No index is left out: the handler declares no optional visit. *)
Definition all_visited (r : RoutingModel) (a : Assignment) : bool :=
  forallb (fun k => existsb (on_path r a (Z.of_nat k)) (vehicles r))
          (seq 0 (GetNumberOfIndices (manager r))).

Definition range_holds (a : Assignment) (rg : string * Z * (Z * Z)) : bool :=
  let '(dim, i, (lo, hi)) := rg in
  (lo <=? CumulVar a dim i) && (CumulVar a dim i <=? hi).

Definition constraint_holds (a : Assignment) (c : Constraint) : bool :=
  match c with
  | VehicleVarEq i j => VehicleVar a i =? VehicleVar a j
  | CumulVarLe dim i j => CumulVar a dim i <=? CumulVar a dim j
  end.

(** [a] is a solution of the problem stated in [r]. *)
Definition satisfies (r : RoutingModel) (a : Assignment) : bool :=
  forallb (route_holds r a) (vehicles r)
  && all_visited r a
  && forallb (range_holds a) (cumul_ranges r)
  && forallb (constraint_holds a) (solver_constraints r).

End pywrapcp.
Import pywrapcp.

(* ------------------------------------------------------------------ *)
(** ** The handler *)

Definition Time : string := "Time".
Definition Capacity : string := "Capacity".

(** The message of the 400 response (Turkish: no suitable route was found;
    increase the number of drivers or loosen the time window settings). *)
Definition no_solution_message : string :=
  "Uygun rota bulunamadı.  Sürücü sayısını artırın veya time window ayarlarını gevşetin. ".

(** [time_callback]: the travel time between the nodes of two indices
    ([int] of an integer entry is the entry). *)
Definition time_callback (manager : RoutingIndexManager) (time_matrix : list (list Z))
           (from_index to_index : Z) : Outcome Z :=
  let from_node := IndexToNode manager from_index in
  let to_node := IndexToNode manager to_index in
  row <- getitem time_matrix from_node ;;
  getitem row to_node.

(** The [for job in jobs] loop of [demand_callback]. *)
Fixpoint demand_of_node (jobs : list Job) (node : Z) : Z :=
  match jobs with
  | [] => 0
  | job :: jobs' =>
      if node =? pickup_node job then passengers job
      else if node =? dropoff_node job then - passengers job
      else demand_of_node jobs' node
  end.

(** [demand_callback]: the change of load when leaving an index. *)
Definition demand_callback (manager : RoutingIndexManager) (jobs : list Job)
           (from_index : Z) : Z :=
  let node := IndexToNode manager from_index in
  demand_of_node jobs node.

(** The pickup time window of a job. *)
Definition pickup_tw (job : Job) : Z * Z :=
  let pickup_tw_start := pickup_time job - 15 * 60 in
  let pickup_tw_end := pickup_time job + 15 * 60 in
  (pickup_tw_start, pickup_tw_end).

(** The body of the loop over the jobs: time windows, pairing, same vehicle,
    pickup no later than dropoff. *)
Definition post_job (manager : RoutingIndexManager) (routing : RoutingModel) (job : Job)
  : RoutingModel :=
  let pickup_idx := NodeToIndex manager (pickup_node job) in
  let dropoff_idx := NodeToIndex manager (dropoff_node job) in
  let '(pickup_tw_start, pickup_tw_end) := pickup_tw job in
  let routing := SetRange routing Time pickup_idx pickup_tw_start pickup_tw_end in
  let routing := SetRange routing Time dropoff_idx 0 (24 * 3600) in
  let routing := AddPickupAndDelivery routing pickup_idx dropoff_idx in
  let routing := solver_Add routing (VehicleVarEq pickup_idx dropoff_idx) in
  solver_Add routing (CumulVarLe Time pickup_idx dropoff_idx).

(** The body of the loop over the drivers: shift times. *)
Definition post_shift (routing : RoutingModel) (entry : nat * Driver) : RoutingModel :=
  let '(i, driver) := entry in
  let start_idx := Start routing i in
  let end_idx := End routing i in
  let routing := SetRange routing Time start_idx (shift_start driver) (shift_start driver) in
  SetRange routing Time end_idx 0 (shift_end driver).

Definition enumerate {A : Type} (l : list A) : list (nat * A) :=
  combine (seq 0 (List.length l)) l.

(** The problem the handler states for a request. *)
Definition build_routing (data : Request) (manager : RoutingIndexManager) : RoutingModel :=
  let routing := new_RoutingModel manager in
  let time_callback_index := time_callback manager (time_matrix data) in
  let routing := SetArcCostEvaluatorOfAllVehicles routing time_callback_index in
  let routing := AddDimension routing time_callback_index (30 * 60) (24 * 3600) false Time in
  let routing := fold_left (post_job manager) (jobs data) routing in
  let demand_callback_index := demand_callback manager (jobs data) in
  let routing :=
    AddDimensionWithVehicleCapacity routing demand_callback_index 0
      (map capacity (drivers data)) true Capacity in
  fold_left post_shift (enumerate (drivers data)) routing.

Definition search_params : RoutingSearchParameters :=
  let p := DefaultRoutingSearchParameters in
  let p := mkParams PATH_CHEAPEST_ARC (local_search_metaheuristic p) (time_limit_seconds p) in
  let p := mkParams (first_solution_strategy p) GUIDED_LOCAL_SEARCH (time_limit_seconds p) in
  mkParams (first_solution_strategy p) (local_search_metaheuristic p) (Some 30).

(** *** Reading the routes off a solution *)

Section ParseSolution.

Variable routing : RoutingModel.
Variable solution : Assignment.
Variable drivers_ : list Driver.

Definition visit (index : Z) : Stop :=
  let node := IndexToNode (manager routing) index in
  mkStop node (CumulVar solution Time index).

(** [while not routing.IsEnd(index): ...], at most [fuel] tests of the
    condition. *)
Fixpoint walk (fuel : nat) (index : Z) (route : list Stop) : Outcome (list Stop * Z) :=
  match fuel with
  | O => OutOfFuel
  | S fuel' =>
      if IsEnd routing index then Returned (route, index)
      else walk fuel' (NextVar solution index) (route ++ [visit index])
  end.

(** The route of one vehicle, its end node included. *)
Definition vehicle_route (fuel : nat) (vehicle_id : nat) : Outcome (list Stop) :=
  ri <- walk fuel (Start routing vehicle_id) [] ;;
  let '(route, index) := ri in
  Returned (route ++ [visit index]).

(** One turn of [for vehicle_id in range(num_vehicles)]. *)
Definition parse_vehicle (fuel : nat) (routes : list RouteEntry) (vehicle_id : nat)
  : Outcome (list RouteEntry) :=
  route <- vehicle_route fuel vehicle_id ;;
  if (2 <? List.length route)%nat then
    driver <- getitem drivers_ (Z.of_nat vehicle_id) ;;
    Returned (routes ++ [mkRouteEntry (id driver) (name driver) (phone driver) route])
  else Returned routes.

Fixpoint parse_vehicles (fuel : nat) (vehicle_ids : list nat) (routes : list RouteEntry)
  : Outcome (list RouteEntry) :=
  match vehicle_ids with
  | [] => Returned routes
  | vehicle_id :: rest =>
      routes' <- parse_vehicle fuel routes vehicle_id ;;
      parse_vehicles fuel rest routes'
  end.

Definition parse_solution (fuel : nat) (num_vehicles : nat) : Outcome (list RouteEntry) :=
  parse_vehicles fuel (seq 0 num_vehicles) [].

End ParseSolution.

(** *** [optimize] *)

Section Handler.

(** [pywrapcp.RoutingIndexManager(num_locations, num_vehicles, starts, ends)] *)
Variable new_RoutingIndexManager :
  nat -> nat -> list Z -> list Z -> Outcome RoutingIndexManager.

(** [routing.SolveWithParameters(search_params)]: an assignment, or [None]. *)
Variable SolveWithParameters :
  RoutingModel -> RoutingSearchParameters -> Outcome (option Assignment).

(** The body of the [try]. *)
Definition optimize_body (fuel : nat) (data : Request) : Outcome Response :=
  let jobs := jobs data in
  let drivers := drivers data in
  let time_matrix := time_matrix data in
  let num_vehicles := List.length drivers in
  let num_locations := List.length time_matrix in
  manager <- new_RoutingIndexManager num_locations num_vehicles
               (map start_idx drivers) (map end_idx drivers) ;;
  let routing := build_routing data manager in
  solution <- SolveWithParameters routing search_params ;;
  match solution with
  | None => Returned (mkResponse (ErrorBody no_solution_message) 400)
  | Some solution =>
      routes <- parse_solution routing solution drivers fuel num_vehicles ;;
      Returned (mkResponse (RoutesBody routes) 200)
  end.

(** The handler: any exception becomes a 500 response carrying its text. *)
Definition optimize (fuel : nat) (data : Request) : Outcome Response :=
  try_except (optimize_body fuel data) (fun e => mkResponse (ErrorBody e) 500).

End Handler.

(* ------------------------------------------------------------------ *)
(** ** The model of a request, field by field *)

Section RecordedModel.

Variable manager_ : RoutingIndexManager.
Variable data : Request.

(** The two windows a job contributes. *)
Definition job_ranges (job : Job) : list (string * Z * (Z * Z)) :=
  [(Time, NodeToIndex manager_ (pickup_node job),
    (pickup_time job - 900, pickup_time job + 900));
   (Time, NodeToIndex manager_ (dropoff_node job), (0, 86400))].

(** The two constraints a job contributes. *)
Definition job_constraints (job : Job) : list Constraint :=
  [VehicleVarEq (NodeToIndex manager_ (pickup_node job))
                (NodeToIndex manager_ (dropoff_node job));
   CumulVarLe Time (NodeToIndex manager_ (pickup_node job))
              (NodeToIndex manager_ (dropoff_node job))].

(** The two windows a driver contributes. *)
Definition shift_ranges (entry : nat * Driver) : list (string * Z * (Z * Z)) :=
  [(Time, GetStartIndex manager_ (fst entry),
    (shift_start (snd entry), shift_start (snd entry)));
   (Time, GetEndIndex manager_ (fst entry), (0, shift_end (snd entry)))].

(** The time dimension: travel times, up to 30 minutes of waiting between
    two stops, at most a day in all. *)
Definition time_dimension : Dimension :=
  mkDimension (time_callback manager_ (time_matrix data)) 1800 (fun _ => 86400) false.

(** The capacity dimension: the load starts at 0, changes by the demand
    of the index left, and stays within the capacity of the driver. *)
Definition capacity_dimension : Dimension :=
  mkDimension (fun i _ => Returned (demand_callback manager_ (jobs data) i)) 0
              (fun v => nth v (map capacity (drivers data)) 0) true.

End RecordedModel.

(** A driver with the route of the vehicle, as an entry of the response. *)
Definition tagged (dr : Driver * list Stop) : RouteEntry :=
  mkRouteEntry (id (fst dr)) (name (fst dr)) (phone (fst dr)) (snd dr).

(** [time_matrix[from_node][to_node]], the entry [time_callback] returns. *)
Definition travel_time (time_matrix : list (list Z)) (from_node to_node : Z) : Outcome Z :=
  row <- getitem time_matrix from_node ;;
  getitem row to_node.

(** The sum of a list of integers. *)
Fixpoint sumZ (l : list Z) : Z :=
  match l with
  | [] => 0
  | x :: l' => x + sumZ l'
  end.

(* ------------------------------------------------------------------ *)
(** ** A concrete instance: one driver, one job *)

Module ScenarioA.

(** Nodes: 0 is the driver's depot (start and end), 1 the pickup, 2 the
    dropoff.  Indices: 0, 1, 2 for the three nodes (0 is the start of the
    only vehicle) and 3 for its end. *)
Definition manager_A : RoutingIndexManager :=
  mkManager 1 4 (fun n => n) (fun i => if i =? 3 then 0 else i)
            (fun _ => 0) (fun _ => 3).

Definition new_manager (num_locations num_vehicles : nat) (starts ends : list Z)
  : Outcome RoutingIndexManager :=
  if (num_locations =? 3)%nat && (num_vehicles =? 1)%nat then
    match starts, ends with
    | [0], [0] => Returned manager_A
    | _, _ => Raised "unsupported depots"
    end
  else Raised "unsupported size".

Definition request_A : Request :=
  mkRequest [mkJob 1 2 1 1000]
            [mkDriver "d1" "Ayse" "555" 0 0 4 0 36000]
            [[0; 0; 500]; [0; 0; 500]; [0; 500; 0]].

(** 0 -> 1 -> 2 -> 3, leaving the depot at 0, pickup at 100, dropoff at 600. *)
Definition assignment_A : Assignment :=
  mkAssignment
    (fun i => i + 1)
    (fun _ => 0)
    (fun dim i =>
       if String.eqb dim Time then
         (if i =? 0 then 0 else if i =? 1 then 100 else 600)
       else (if i =? 2 then 1 else 0)).

(** The same request with the pickup at 50000, after the driver's shift. *)
Definition request_B : Request :=
  mkRequest [mkJob 1 2 1 50000]
            [mkDriver "d1" "Ayse" "555" 0 0 4 0 36000]
            [[0; 0; 500]; [0; 0; 500]; [0; 500; 0]].

(** The same path with 100 seconds of waiting before the dropoff. *)
Definition assignment_A_waiting : Assignment :=
  mkAssignment
    (fun i => i + 1)
    (fun _ => 0)
    (fun dim i =>
       if String.eqb dim Time then
         (if i =? 0 then 0 else if i =? 1 then 100 else 700)
       else (if i =? 2 then 1 else 0)).

(** A solver that proposes one candidate and returns it when it is a
    solution of the model. *)
Definition candidate_solver (candidate : Assignment)
           (r : RoutingModel) (_ : RoutingSearchParameters)
  : Outcome (option Assignment) :=
  Returned (if satisfies r candidate then Some candidate else None).


(** A driver whose shift ends before it starts. *)
Definition request_inverted : Request :=
  mkRequest [mkJob 1 2 1 1000]
            [mkDriver "d1" "Ayse" "555" 0 0 4 2000 1500]
            [[0; 0; 500]; [0; 0; 500]; [0; 500; 0]].

(** A job of five passengers for a driver of capacity four. *)
Definition request_overload : Request :=
  mkRequest [mkJob 1 2 5 1000]
            [mkDriver "d1" "Ayse" "555" 0 0 4 0 36000]
            [[0; 0; 500]; [0; 0; 500]; [0; 500; 0]].

(** The route of the only driver in the first solution of [request_A]. *)
Definition entry_A : RouteEntry :=
  mkRouteEntry "d1" "Ayse" "555"
    [mkStop 0 0; mkStop 1 100; mkStop 2 600; mkStop 0 600].

(** A request the constructor [new_manager] refuses. *)
Definition request_empty : Request := mkRequest [] [] [].

End ScenarioA.

(* ------------------------------------------------------------------ *)
(** ** What [build_routing] records *)

Section Recorded.

Variable manager_ : RoutingIndexManager.

Lemma post_jobs_fields (js : list Job) (r : RoutingModel) :
  manager (fold_left (post_job manager_) js r) = manager r
  /\ dimensions (fold_left (post_job manager_) js r) = dimensions r
  /\ cumul_ranges (fold_left (post_job manager_) js r)
     = cumul_ranges r ++ flat_map (job_ranges manager_) js
  /\ solver_constraints (fold_left (post_job manager_) js r)
     = solver_constraints r ++ flat_map (job_constraints manager_) js.
Proof.
  revert r; induction js as [|job js IH]; intros r; cbn [fold_left flat_map].
  - now rewrite !app_nil_r.
  - destruct (IH (post_job manager_ r job)) as (Hm & Hd & Hr & Hc).
    rewrite Hm, Hd, Hr, Hc.
    unfold post_job, pickup_tw, job_ranges, job_constraints; cbn.
    now rewrite <- !app_assoc.
Qed.

Lemma post_shifts_fields (es : list (nat * Driver)) (r : RoutingModel) :
  manager r = manager_ ->
  manager (fold_left post_shift es r) = manager r
  /\ dimensions (fold_left post_shift es r) = dimensions r
  /\ cumul_ranges (fold_left post_shift es r)
     = cumul_ranges r ++ flat_map (shift_ranges manager_) es
  /\ solver_constraints (fold_left post_shift es r) = solver_constraints r.
Proof.
  revert r; induction es as [|[i d] es IH]; intros r Hr; cbn [fold_left flat_map].
  - now rewrite !app_nil_r.
  - destruct (IH (post_shift r (i, d)) Hr) as (Hm & Hd & Hg & Hc).
    rewrite Hm, Hd, Hg, Hc.
    unfold post_shift, shift_ranges, Start, End; cbn. rewrite Hr.
    now rewrite <- !app_assoc.
Qed.

Variable data : Request.

Lemma build_routing_fields :
  manager (build_routing data manager_) = manager_
  /\ dimensions (build_routing data manager_)
     = [(Time, time_dimension manager_ data);
        (Capacity, capacity_dimension manager_ data)]
  /\ cumul_ranges (build_routing data manager_)
     = flat_map (job_ranges manager_) (jobs data)
       ++ flat_map (shift_ranges manager_) (enumerate (drivers data))
  /\ solver_constraints (build_routing data manager_)
     = flat_map (job_constraints manager_) (jobs data).
Proof.
  unfold build_routing; cbv zeta.
  set (r0 := AddDimension _ _ _ _ _ _).
  destruct (post_jobs_fields (jobs data) r0) as (Hm1 & Hd1 & Hr1 & Hc1).
  set (r1 := fold_left _ (jobs data) r0) in *.
  set (r2 := AddDimensionWithVehicleCapacity r1 _ _ _ _ _).
  assert (H2 : manager r2 = manager_) by (unfold r2; cbn; now rewrite Hm1).
  destruct (post_shifts_fields (enumerate (drivers data)) r2 H2) as (Hm & Hd & Hr & Hc).
  rewrite Hm, Hd, Hr, Hc. unfold r2; cbn. rewrite Hd1, Hr1, Hc1.
  repeat split; try reflexivity. exact H2.
Qed.

End Recorded.

(* ------------------------------------------------------------------ *)
(** ** Paths and dimensions *)

Lemma last_nonempty_default {A : Type} (l : list A) (x d d' : A) :
  last (x :: l) d = last (x :: l) d'.
Proof.
  revert x; induction l as [|y l IH]; intros x; [reflexivity|].
  change (last (y :: l) d = last (y :: l) d'). apply IH.
Qed.

Lemma map_removelast_last {A B : Type} (f : A -> B) (l : list A) (x d : A) :
  map f (removelast (x :: l)) ++ [f (last (x :: l) d)] = map f (x :: l).
Proof.
  revert x; induction l as [|y l IH]; intros x; [reflexivity|].
  change (f x :: (map f (removelast (y :: l)) ++ [f (last (y :: l) d)])
          = f x :: map f (y :: l)).
  now rewrite IH.
Qed.

Section Paths.

Variable r : RoutingModel.
Variable a : Assignment.

Lemma path_from_head (fuel : nat) (i : Z) (p : list Z) :
  path_from fuel r a i = Some p -> exists q, p = i :: q.
Proof.
  destruct fuel as [|fuel]; cbn [path_from]; [discriminate|].
  destruct (IsEnd r i).
  - intros [= <-]. now exists [].
  - destruct (path_from fuel r a (NextVar a i)) as [q|]; cbn; [|discriminate].
    intros [= <-]. now exists q.
Qed.

Lemma path_from_more_fuel (fuel fuel' : nat) (i : Z) (p : list Z) :
  (fuel <= fuel')%nat ->
  path_from fuel r a i = Some p -> path_from fuel' r a i = Some p.
Proof.
  revert fuel' i p; induction fuel as [|fuel IH]; intros fuel' i p Hle;
    cbn [path_from]; [discriminate|].
  destruct fuel' as [|fuel']; [lia|]. cbn [path_from].
  destruct (IsEnd r i); [easy|].
  destruct (path_from fuel r a (NextVar a i)) as [q|] eqn:Hq; cbn; [|discriminate].
  intros [= <-]. rewrite (IH fuel' _ q); [reflexivity | lia | exact Hq].
Qed.

(** The loop of the handler walks the vehicle's path. *)
Lemma walk_path (fuel : nat) (i : Z) (p : list Z) (acc : list Stop) :
  path_from fuel r a i = Some p ->
  walk r a fuel i acc
  = Returned (acc ++ map (visit r a) (removelast p), last p i).
Proof.
  revert i p acc; induction fuel as [|fuel IH]; intros i p acc;
    cbn [path_from walk]; [discriminate|].
  destruct (IsEnd r i).
  - intros [= <-]. cbn. now rewrite app_nil_r.
  - destruct (path_from fuel r a (NextVar a i)) as [q|] eqn:Hq; cbn [option_map];
      [|discriminate].
    intros [= <-]. destruct (path_from_head _ _ _ Hq) as [q' ->].
    rewrite (IH _ _ _ Hq), <- app_assoc.
    now rewrite (last_nonempty_default q' _ (NextVar a i) i).
Qed.

Lemma vehicle_route_path (fuel0 fuel : nat) (v : nat) (p : list Z) :
  (fuel0 <= fuel)%nat ->
  path_from fuel0 r a (Start r v) = Some p ->
  vehicle_route r a fuel v = Returned (map (visit r a) p).
Proof.
  intros Hle Hp. apply (path_from_more_fuel _ _ _ _ Hle) in Hp.
  unfold vehicle_route. rewrite (walk_path _ _ _ _ Hp). cbn [bind app].
  destruct (path_from_head _ _ _ Hp) as [q ->].
  now rewrite map_removelast_last.
Qed.

(** *** One dimension along a path *)

Variable d : Dimension.
Variable cumul : Z -> Z.
Variable v : nat.

Lemma dimension_along_cons (i : Z) (rest : list Z) :
  dimension_along d cumul v (i :: rest) = true ->
  0 <= cumul i <= vehicle_capacity d v
  /\ match rest with
     | [] => True
     | j :: _ =>
         exists t, transit d i j = Returned t
                   /\ cumul i + t <= cumul j <= cumul i + t + slack_max d
     end
  /\ dimension_along d cumul v rest = true.
Proof.
  cbn [dimension_along]. rewrite !andb_true_iff, !Z.leb_le.
  intros [[[H0 H1] H2] H3]. repeat split; try assumption.
  destruct rest as [|j rest']; [exact I|].
  destruct (transit d i j) as [t| |]; try discriminate.
  apply andb_true_iff in H2. rewrite !Z.leb_le in H2. now exists t.
Qed.

Lemma dimension_along_bounds (p : list Z) :
  dimension_along d cumul v p = true ->
  forall i, In i p -> 0 <= cumul i <= vehicle_capacity d v.
Proof.
  induction p as [|i0 p IH]; intros H i Hi; [destruct Hi|].
  apply dimension_along_cons in H. destruct H as (Hb & _ & Hrest).
  destruct Hi as [<- | Hi]; [exact Hb | now apply IH].
Qed.

(** With no slack and a transit that depends on the index left only, the
    value at a stop is the value at the first stop plus the transits of
    the stops before it. *)
Lemma dimension_along_running_sum (f : Z -> Z) (p : list Z) :
  slack_max d = 0 ->
  (forall i j, transit d i j = Returned (f i)) ->
  dimension_along d cumul v p = true ->
  forall k i, nth_error p k = Some i ->
    cumul i = cumul (hd i p) + sumZ (map f (firstn k p)).
Proof.
  intros Hs Ht. induction p as [|i0 p IH]; intros H k i Hk.
  - now destruct k.
  - apply dimension_along_cons in H. destruct H as (_ & Hstep & Hrest).
    destruct k as [|k]; cbn in Hk |- *.
    + injection Hk as <-. lia.
    + destruct p as [|j p']; [now destruct k|].
      destruct Hstep as (t & Et & Hstep). rewrite Ht in Et. injection Et as <-.
      rewrite (IH Hrest k i Hk). cbn [hd]. lia.
Qed.

(** With transits that are never negative, the value never decreases
    along the path. *)
Lemma dimension_along_monotone (p : list Z) :
  (forall i j t, transit d i j = Returned t -> 0 <= t) ->
  dimension_along d cumul v p = true ->
  forall i, In i p -> cumul (hd i p) <= cumul i <= cumul (last p i).
Proof.
  intros Ht. induction p as [|i0 p IH]; intros H i Hi; [destruct Hi|].
  apply dimension_along_cons in H. destruct H as (_ & Hstep & Hrest).
  destruct p as [|j p'].
  - destruct Hi as [<- | []]. cbn. lia.
  - destruct Hstep as (t & Et & Hstep). apply Ht in Et.
    cbn [hd]. change (last (i0 :: j :: p') i) with (last (j :: p') i).
    destruct Hi as [<- | Hi].
    + specialize (IH Hrest j (or_introl eq_refl)). cbn [hd] in IH.
      rewrite (last_nonempty_default p' j j i0) in IH. lia.
    + specialize (IH Hrest i Hi). cbn [hd] in IH. lia.
Qed.

End Paths.

(* ------------------------------------------------------------------ *)
(** ** What a solution of a model guarantees *)

Section Solutions.

Variable r : RoutingModel.
Variable a : Assignment.
Hypothesis Hsat : satisfies r a = true.

Lemma solution_range (dim : string) (i lo hi : Z) :
  In (dim, i, (lo, hi)) (cumul_ranges r) -> lo <= CumulVar a dim i <= hi.
Proof.
  intros Hin. pose proof Hsat as H. unfold satisfies in H.
  rewrite !andb_true_iff in H. destruct H as [[_ Hr] _].
  rewrite forallb_forall in Hr. specialize (Hr _ Hin). cbn in Hr.
  apply andb_true_iff in Hr. now rewrite !Z.leb_le in Hr.
Qed.

Lemma solution_constraint (c : Constraint) :
  In c (solver_constraints r) -> constraint_holds a c = true.
Proof.
  intros Hin. pose proof Hsat as H. unfold satisfies in H.
  rewrite !andb_true_iff in H. destruct H as [_ Hc].
  rewrite forallb_forall in Hc. now apply Hc.
Qed.

Lemma solution_route (v : nat) :
  (v < GetNumberOfVehicles (manager r))%nat ->
  exists p,
    path_of r a v = Some p
    /\ last p (Start r v) = End r v
    /\ (forall i, In i p -> VehicleVar a i = Z.of_nat v)
    /\ (forall nd, In nd (dimensions r) -> dimension_holds a v p nd = true).
Proof.
  intros Hv. pose proof Hsat as H. unfold satisfies in H.
  rewrite !andb_true_iff in H. destruct H as [[[Hr _] _] _].
  rewrite forallb_forall in Hr.
  assert (Hin : In v (vehicles r)) by (apply in_seq; lia).
  specialize (Hr v Hin). unfold route_holds in Hr.
  destruct (path_of r a v) as [p|]; [|discriminate]. exists p.
  rewrite !andb_true_iff, Z.eqb_eq, !forallb_forall in Hr.
  destruct Hr as [[Hl Hv'] Hd]. repeat split; try assumption.
  intros i Hi. now apply Z.eqb_eq, Hv'.
Qed.

Lemma solution_visited (i : Z) :
  0 <= i < Z.of_nat (GetNumberOfIndices (manager r)) ->
  exists v p,
    (v < GetNumberOfVehicles (manager r))%nat /\ path_of r a v = Some p /\ In i p.
Proof.
  intros Hi. pose proof Hsat as H. unfold satisfies in H.
  rewrite !andb_true_iff in H. destruct H as [[[_ Hv] _] _].
  unfold all_visited in Hv. rewrite forallb_forall in Hv.
  assert (Hin : In (Z.to_nat i) (seq 0 (GetNumberOfIndices (manager r))))
    by (apply in_seq; lia).
  specialize (Hv _ Hin). rewrite Z2Nat.id in Hv by lia.
  apply existsb_exists in Hv. destruct Hv as (v & Hvin & Hon).
  apply in_seq in Hvin. unfold on_path in Hon.
  destruct (path_of r a v) as [p|] eqn:Ep; [|discriminate].
  apply existsb_exists in Hon. destruct Hon as (x & Hx & Ex).
  apply Z.eqb_eq in Ex. subst x. exists v, p.
  repeat split; [lia | exact Ep | assumption].
Qed.

End Solutions.

Lemma enumerate_In {A : Type} (l : list A) (v : nat) (x : A) :
  nth_error l v = Some x -> In (v, x) (enumerate l).
Proof.
  unfold enumerate. change v with (0 + v)%nat at 2. generalize 0%nat as s.
  revert v; induction l as [|y l IH]; intros v s Hv; [now destruct v|].
  destruct v as [|v]; cbn in Hv |- *.
  - injection Hv as <-. left. f_equal. lia.
  - right. replace (s + S v)%nat with (S s + v)%nat by lia. now apply IH.
Qed.

Lemma getitem_nat {A : Type} (l : list A) (v : nat) (x : A) :
  nth_error l v = Some x -> getitem l (Z.of_nat v) = Returned x.
Proof.
  intros Hv. assert (Hlt : (v < List.length l)%nat) by (apply nth_error_Some; congruence).
  unfold getitem. destruct (Z.of_nat v <? 0) eqn:En; [apply Z.ltb_lt in En; lia|].
  destruct (0 <=? Z.of_nat v) eqn:E0; [|apply Z.leb_gt in E0; lia].
  destruct (Z.of_nat v <? Z.of_nat (List.length l)) eqn:E1; [|apply Z.ltb_ge in E1; lia].
  cbn [andb]. now rewrite Nat2Z.id, Hv.
Qed.

Lemma getitem_In {A : Type} (l : list A) (i : Z) (x : A) :
  getitem l i = Returned x -> In x l.
Proof.
  unfold getitem. destruct (_ && _); [|discriminate].
  destruct (nth_error l _) as [y|] eqn:Ey; [|discriminate].
  intros [= <-]. eapply nth_error_In; eassumption.
Qed.

Lemma nth_map_nth_error {A : Type} (f : A -> Z) (l : list A) (v : nat) (x : A) :
  nth_error l v = Some x -> nth v (map f l) 0 = f x.
Proof.
  revert v; induction l as [|y l IH]; intros [|v] Hv; try discriminate; cbn in *.
  - now injection Hv as <-.
  - now apply IH.
Qed.

Lemma Forall2_seq_nth_error {A : Type} (P : nat -> A -> Prop) (l : list A) (s : nat) :
  (forall v x, nth_error l v = Some x -> P (s + v)%nat x) ->
  Forall2 P (seq s (List.length l)) l.
Proof.
  revert s; induction l as [|y l IH]; intros s H; cbn; constructor.
  - replace s with (s + 0)%nat at 1 by lia. now apply H.
  - apply IH. intros v x Hv. replace (S s + v)%nat with (s + S v)%nat by lia.
    now apply H.
Qed.

Lemma Forall2_exists_list {A B : Type} (P : A -> B -> Prop) (l : list A) :
  (forall x, In x l -> exists y, P x y) -> exists l', Forall2 P l l'.
Proof.
  induction l as [|x l IH]; intros H.
  - exists []. constructor.
  - destruct (H x (or_introl eq_refl)) as [y Hy].
    destruct IH as [l' Hl']; [intros z Hz; apply H; now right|].
    exists (y :: l'). now constructor.
Qed.

Section ParseFacts.

Variable routing : RoutingModel.
Variable solution : Assignment.
Variable drivers_ : list Driver.
Variable fuel : nat.

(** The loop over the vehicles keeps, in order, the routes longer than 2
    and tags each with the driver of its vehicle. *)
Lemma parse_vehicles_kept (vs : list nat) :
  forall (ds : list Driver) (rs : list (list Stop)) (acc : list RouteEntry),
    Forall2 (fun v d => getitem drivers_ (Z.of_nat v) = Returned d) vs ds ->
    Forall2 (fun v r => vehicle_route routing solution fuel v = Returned r) vs rs ->
    parse_vehicles routing solution drivers_ fuel vs acc
    = Returned (acc ++ map tagged
                  (filter (fun dr => (2 <? List.length (snd dr))%nat) (combine ds rs))).
Proof.
  induction vs as [|v vs IH]; intros ds rs acc Hd Hr.
  - inversion Hd; subst. cbn. now rewrite app_nil_r.
  - inversion Hd as [|? d ? ds' Hd1 Hd2]; subst.
    inversion Hr as [|? rt ? rs' Hr1 Hr2]; subst.
    cbn [parse_vehicles combine filter snd]. unfold parse_vehicle.
    rewrite Hr1. cbn [bind].
    destruct (2 <? List.length rt)%nat.
    + rewrite Hd1. cbn [bind]. rewrite (IH ds' rs' _ Hd2 Hr2).
      cbn [map]. now rewrite <- app_assoc.
    + cbn [bind]. now apply IH.
Qed.

End ParseFacts.

(* ------------------------------------------------------------------ *)
(** ** Properties of the handler *)

Section Properties.

Variable new_RoutingIndexManager :
  nat -> nat -> list Z -> list Z -> Outcome RoutingIndexManager.
Variable SolveWithParameters :
  RoutingModel -> RoutingSearchParameters -> Outcome (option Assignment).

(** The manager is built for the number of vehicles it is asked for. *)
Hypothesis manager_vehicles :
  forall n k starts ends m,
    new_RoutingIndexManager n k starts ends = Returned m ->
    GetNumberOfVehicles m = k.

(** An assignment the solver returns is a solution of the model. *)
Hypothesis solver_sound :
  forall r p a,
    SolveWithParameters r p = Returned (Some a) -> satisfies r a = true.

(** C1. In every assignment the solver returns for the handler's model, and
    for every job of the request: the pickup index and the dropoff index
    have the same vehicle, the time at the pickup index is no later than
    the time at the dropoff index, and, when the dropoff index is one of
    the manager's indices, it lies on the path of the vehicle whose path
    holds the pickup index. *)
Theorem pickup_dropoff_same_vehicle_in_order
    (data : Request) (manager_ : RoutingIndexManager) (solution : Assignment) (job : Job) :
  SolveWithParameters (build_routing data manager_) search_params
  = Returned (Some solution) ->
  In job (jobs data) ->
  let routing := build_routing data manager_ in
  let pickup_idx := NodeToIndex manager_ (pickup_node job) in
  let dropoff_idx := NodeToIndex manager_ (dropoff_node job) in
  VehicleVar solution pickup_idx = VehicleVar solution dropoff_idx
  /\ CumulVar solution Time pickup_idx <= CumulVar solution Time dropoff_idx
  /\ (0 <= dropoff_idx < Z.of_nat (GetNumberOfIndices manager_) ->
      forall v p,
        (v < GetNumberOfVehicles manager_)%nat ->
        path_of routing solution v = Some p ->
        In pickup_idx p -> In dropoff_idx p).
Proof.
  intros Hsolve Hjob routing pickup_idx dropoff_idx.
  pose proof (solver_sound _ _ _ Hsolve) as Hsat. fold routing in Hsat.
  destruct (build_routing_fields manager_ data) as (Hm & _ & _ & Hc).
  fold routing in Hm, Hc.
  assert (Hin : forall c, In c (job_constraints manager_ job) ->
                          constraint_holds solution c = true).
  { intros c Hcin. apply (solution_constraint routing solution Hsat).
    rewrite Hc. apply in_flat_map. now exists job. }
  assert (Hveh : VehicleVar solution pickup_idx = VehicleVar solution dropoff_idx).
  { apply Z.eqb_eq. apply (Hin (VehicleVarEq pickup_idx dropoff_idx)). now left. }
  split; [exact Hveh|]. split.
  - apply Z.leb_le. apply (Hin (CumulVarLe Time pickup_idx dropoff_idx)).
    right. now left.
  - intros Hd v p Hv Hp Hpick.
    destruct (solution_route routing solution Hsat v) as (p0 & Hp0 & _ & Hv0 & _);
      [now rewrite Hm|].
    rewrite Hp in Hp0. injection Hp0 as <-.
    destruct (solution_visited routing solution Hsat dropoff_idx) as (v' & p' & Hv' & Hp' & Hdrop);
      [now rewrite Hm|].
    destruct (solution_route routing solution Hsat v' Hv') as (p1 & Hp1 & _ & Hv1 & _).
    rewrite Hp' in Hp1. injection Hp1 as <-.
    assert (v' = v) by (apply Nat2Z.inj; rewrite <- (Hv1 _ Hdrop), <- (Hv0 _ Hpick); easy).
    subst v'. rewrite Hp in Hp'. now injection Hp' as <-.
Qed.

(** C3. In every assignment the solver returns for the handler's model:
    the time at every job's pickup index lies within 900 seconds of the
    job's pickup time; the time at every driver's start index is the
    driver's shift start; the time at every driver's end index is at most
    the driver's shift end. *)
Theorem time_windows_and_shifts
    (data : Request) (manager_ : RoutingIndexManager) (solution : Assignment) :
  SolveWithParameters (build_routing data manager_) search_params
  = Returned (Some solution) ->
  let routing := build_routing data manager_ in
  (forall job, In job (jobs data) ->
     pickup_time job - 900
     <= CumulVar solution Time (NodeToIndex manager_ (pickup_node job))
     <= pickup_time job + 900)
  /\ (forall v driver, nth_error (drivers data) v = Some driver ->
        CumulVar solution Time (Start routing v) = shift_start driver
        /\ CumulVar solution Time (End routing v) <= shift_end driver).
Proof.
  intros Hsolve routing.
  pose proof (solver_sound _ _ _ Hsolve) as Hsat. fold routing in Hsat.
  destruct (build_routing_fields manager_ data) as (Hm & _ & Hr & _).
  fold routing in Hm, Hr. split.
  - intros job Hjob. apply (solution_range routing solution Hsat).
    rewrite Hr. apply in_or_app. left. apply in_flat_map. exists job.
    split; [assumption | now left].
  - intros v driver Hv. apply enumerate_In in Hv.
    assert (Hin : forall g, In g (shift_ranges manager_ (v, driver)) ->
                            In g (cumul_ranges routing)).
    { intros g Hg. rewrite Hr. apply in_or_app. right. apply in_flat_map.
      now exists (v, driver). }
    unfold Start, End. rewrite Hm. split.
    + pose proof (solution_range routing solution Hsat _ _ _ _
                    (Hin _ (or_introl eq_refl))) as H. cbn in H. lia.
    + pose proof (solution_range routing solution Hsat _ _ _ _
                    (Hin _ (or_intror (or_introl eq_refl)))) as H. cbn in H. lia.
Qed.

(** C2. In every assignment the solver returns for the handler's model,
    every driver's vehicle has a path, and at every index of that path
    the value of the capacity dimension is the sum of [demand_callback]
    over the indices visited before it and lies between 0 and the
    driver's capacity. *)
Theorem load_within_capacity
    (data : Request) (manager_ : RoutingIndexManager) (solution : Assignment)
    (v : nat) (driver : Driver) :
  new_RoutingIndexManager (List.length (time_matrix data)) (List.length (drivers data))
    (map start_idx (drivers data)) (map end_idx (drivers data)) = Returned manager_ ->
  SolveWithParameters (build_routing data manager_) search_params
  = Returned (Some solution) ->
  nth_error (drivers data) v = Some driver ->
  exists p,
    path_of (build_routing data manager_) solution v = Some p
    /\ forall k index, nth_error p k = Some index ->
         CumulVar solution Capacity index
         = sumZ (map (demand_callback manager_ (jobs data)) (firstn k p))
         /\ 0 <= CumulVar solution Capacity index <= capacity driver.
Proof.
  intros Hmgr Hsolve Hv. set (routing := build_routing data manager_).
  pose proof (solver_sound _ _ _ Hsolve) as Hsat. fold routing in Hsat.
  destruct (build_routing_fields manager_ data) as (Hm & Hd & _ & _).
  fold routing in Hm, Hd.
  assert (Hlt : (v < GetNumberOfVehicles (manager routing))%nat).
  { rewrite Hm, (manager_vehicles _ _ _ _ _ Hmgr). apply nth_error_Some. congruence. }
  destruct (solution_route routing solution Hsat v Hlt) as (p & Hp & _ & _ & Hdim).
  exists p. split; [exact Hp|]. intros k index Hk.
  specialize (Hdim (Capacity, capacity_dimension manager_ data)).
  rewrite Hd in Hdim. specialize (Hdim (or_intror (or_introl eq_refl))).
  unfold dimension_holds in Hdim. cbn [fst snd capacity_dimension
    fix_start_cumul_to_zero] in Hdim.
  apply andb_true_iff in Hdim. destruct Hdim as [H0 Halong].
  pose proof (dimension_along_running_sum (capacity_dimension manager_ data)
                (CumulVar solution Capacity) v
                (demand_callback manager_ (jobs data)) p eq_refl
                (fun _ _ => eq_refl) Halong k index Hk) as Hsum.
  pose proof (dimension_along_bounds (capacity_dimension manager_ data)
                (CumulVar solution Capacity) v p Halong index
                (nth_error_In _ _ Hk)) as Hb.
  unfold capacity_dimension in Hb. cbn [vehicle_capacity] in Hb. rewrite (nth_map_nth_error _ _ _ _ Hv) in Hb.
  split; [|exact Hb].
  destruct p as [|i0 p']; [now destruct k|].
  cbn [hd] in Hsum. apply Z.eqb_eq in H0. lia.
Qed.

(** C5. When the solver finds no assignment for the handler's model, the
    response is the status 400 with the message that advises more drivers
    or looser time windows; its body carries the message and no route. *)
Theorem no_solution_rejected
    (fuel : nat) (data : Request) (manager_ : RoutingIndexManager) :
  new_RoutingIndexManager (List.length (time_matrix data)) (List.length (drivers data))
    (map start_idx (drivers data)) (map end_idx (drivers data)) = Returned manager_ ->
  SolveWithParameters (build_routing data manager_) search_params = Returned None ->
  optimize new_RoutingIndexManager SolveWithParameters fuel data
  = Returned (mkResponse (ErrorBody no_solution_message) 400).
Proof.
  intros Hmgr Hsolve. unfold optimize, optimize_body.
  rewrite Hmgr. cbn [bind]. rewrite Hsolve. reflexivity.
Qed.

(** C6. For every assignment the solver returns, and when the loops are
    given as many steps as there are indices: every vehicle has a route,
    and the response lists, in the order of the drivers, exactly the
    routes of more than 2 stops (a route of exactly 2 stops is left out),
    each with the id, name and phone of the driver of its vehicle. *)
Theorem unused_vehicles_dropped_routes_tagged
    (fuel : nat) (data : Request) (manager_ : RoutingIndexManager)
    (solution : Assignment) :
  new_RoutingIndexManager (List.length (time_matrix data)) (List.length (drivers data))
    (map start_idx (drivers data)) (map end_idx (drivers data)) = Returned manager_ ->
  SolveWithParameters (build_routing data manager_) search_params
  = Returned (Some solution) ->
  (GetNumberOfIndices manager_ <= fuel)%nat ->
  exists rs : list (list Stop),
    Forall2 (fun v r =>
               vehicle_route (build_routing data manager_) solution fuel v = Returned r)
            (seq 0 (List.length (drivers data))) rs
    /\ optimize new_RoutingIndexManager SolveWithParameters fuel data
       = Returned (mkResponse
                     (RoutesBody
                        (map tagged
                           (filter (fun dr => (2 <? List.length (snd dr))%nat)
                                   (combine (drivers data) rs))))
                     200).
Proof.
  intros Hmgr Hsolve Hfuel. set (routing := build_routing data manager_).
  pose proof (solver_sound _ _ _ Hsolve) as Hsat. fold routing in Hsat.
  destruct (build_routing_fields manager_ data) as (Hm & _ & _ & _).
  fold routing in Hm.
  destruct (Forall2_exists_list
              (fun v r => vehicle_route routing solution fuel v = Returned r)
              (seq 0 (List.length (drivers data)))) as [rs Hrs].
  { intros v Hv. apply in_seq in Hv.
    destruct (solution_route routing solution Hsat v) as (p & Hp & _);
      [rewrite Hm, (manager_vehicles _ _ _ _ _ Hmgr); lia|].
    exists (map (visit routing solution) p).
    apply (vehicle_route_path routing solution (GetNumberOfIndices (manager routing)));
      [now rewrite Hm | exact Hp]. }
  exists rs. split; [exact Hrs|].
  unfold optimize, optimize_body. rewrite Hmgr. cbn [bind].
  rewrite Hsolve. cbn [bind]. unfold parse_solution. fold routing.
  rewrite (parse_vehicles_kept routing solution (drivers data) fuel _
             (drivers data) rs [] ); [reflexivity | | exact Hrs].
  apply (Forall2_seq_nth_error _ (drivers data) 0). intros v d Hv.
  now apply getitem_nat.
Qed.

(** A pickup window that misses every driver's shift leaves the model
    without a solution, so the solver can only answer [None]. *)
Lemma pickup_outside_every_shift_unsolvable
    (data : Request) (manager_ : RoutingIndexManager) (job : Job)
    (answer : option Assignment) :
  new_RoutingIndexManager (List.length (time_matrix data)) (List.length (drivers data))
    (map start_idx (drivers data)) (map end_idx (drivers data)) = Returned manager_ ->
  Forall (Forall (fun t => 0 <= t)) (time_matrix data) ->
  In job (jobs data) ->
  0 <= NodeToIndex manager_ (pickup_node job) < Z.of_nat (GetNumberOfIndices manager_) ->
  (forall driver, In driver (drivers data) ->
     pickup_time job + 900 < shift_start driver
     \/ shift_end driver < pickup_time job - 900) ->
  SolveWithParameters (build_routing data manager_) search_params = Returned answer ->
  answer = None.
Proof.
  intros Hmgr Hpos Hjob Hidx Hout Hsolve.
  destruct answer as [solution|]; [exfalso | reflexivity].
  set (routing := build_routing data manager_) in *.
  pose proof (solver_sound _ _ _ Hsolve) as Hsat.
  destruct (build_routing_fields manager_ data) as (Hm & Hd & Hr & _).
  fold routing in Hm, Hd, Hr.
  set (pickup_idx := NodeToIndex manager_ (pickup_node job)) in *.
  destruct (solution_visited routing solution Hsat pickup_idx) as (v & p & Hv & Hp & Hin);
    [now rewrite Hm|].
  destruct (solution_route routing solution Hsat v Hv) as (p0 & Hp0 & Hlast & _ & Hdim).
  rewrite Hp in Hp0. injection Hp0 as <-.
  specialize (Hdim (Time, time_dimension manager_ data)).
  rewrite Hd in Hdim. specialize (Hdim (or_introl eq_refl)).
  unfold dimension_holds in Hdim. cbn [fst snd time_dimension fix_start_cumul_to_zero] in Hdim.
  cbn [andb] in Hdim.
  pose proof (dimension_along_monotone (time_dimension manager_ data)
                (CumulVar solution Time) v p) as Hmono.
  assert (Htr : forall i j t, transit (time_dimension manager_ data) i j = Returned t ->
                              0 <= t).
  { intros i j t. cbn [transit time_dimension]. unfold time_callback.
    destruct (getitem (time_matrix data) (IndexToNode manager_ i)) as [row| |] eqn:Er;
      cbn [bind]; try discriminate.
    intros Et. apply getitem_In in Er, Et.
    rewrite Forall_forall in Hpos. specialize (Hpos _ Er).
    rewrite Forall_forall in Hpos. now apply Hpos. }
  specialize (Hmono Htr Hdim pickup_idx Hin).
  unfold path_of in Hp. destruct (path_from_head _ _ _ _ _ Hp) as [q ->].
  cbn [hd] in Hmono.
  rewrite (last_nonempty_default q _ pickup_idx (Start routing v)), Hlast in Hmono.
  rewrite Hm, (manager_vehicles _ _ _ _ _ Hmgr) in Hv.
  destruct (nth_error (drivers data) v) as [driver|] eqn:Edrv;
    [|apply nth_error_None in Edrv; lia].
  assert (Hg : forall g, In g (job_ranges manager_ job ++ shift_ranges manager_ (v, driver)) ->
                         In g (cumul_ranges routing)).
  { intros g Hg. rewrite Hr. apply in_app_or in Hg. apply in_or_app.
    destruct Hg as [Hg | Hg]; [left | right]; apply in_flat_map.
    - now exists job.
    - exists (v, driver). split; [now apply enumerate_In | assumption]. }
  pose proof (solution_range routing solution Hsat _ _ _ _
                (Hg _ (or_introl eq_refl))) as Hpick.
  pose proof (solution_range routing solution Hsat _ _ _ _
                (Hg _ (or_intror (or_intror (or_introl eq_refl))))) as Hstart.
  pose proof (solution_range routing solution Hsat _ _ _ _
                (Hg _ (or_intror (or_intror (or_intror (or_introl eq_refl)))))) as Hend.
  cbn [fst snd] in Hstart, Hend. fold pickup_idx in Hpick.
  unfold Start, End in Hmono. rewrite Hm in Hmono.
  destruct (Hout driver (nth_error_In _ _ Edrv)); lia.
Qed.

(** The handler catches every exception. *)
Lemma optimize_never_raises (fuel : nat) (data : Request) (e : string) :
  optimize new_RoutingIndexManager SolveWithParameters fuel data <> Raised e.
Proof.
  unfold optimize, try_except.
  now destruct (optimize_body new_RoutingIndexManager SolveWithParameters fuel data).
Qed.

(** An exception while the index manager is built ends the request with a
    500 response that carries the exception's text, whatever the solver. *)
Lemma optimize_manager_raised (fuel : nat) (data : Request) (e : string) :
  new_RoutingIndexManager (List.length (time_matrix data)) (List.length (drivers data))
    (map start_idx (drivers data)) (map end_idx (drivers data)) = Raised e ->
  optimize new_RoutingIndexManager SolveWithParameters fuel data
  = Returned (mkResponse (ErrorBody e) 500).
Proof.
  intros Hmgr. unfold optimize, optimize_body. now rewrite Hmgr.
Qed.

(** A success response comes from an assignment the solver returned. *)
Lemma optimize_success_inv (fuel : nat) (data : Request) (routes : list RouteEntry) :
  optimize new_RoutingIndexManager SolveWithParameters fuel data
  = Returned (mkResponse (RoutesBody routes) 200) ->
  exists manager_ solution,
    new_RoutingIndexManager (List.length (time_matrix data)) (List.length (drivers data))
      (map start_idx (drivers data)) (map end_idx (drivers data)) = Returned manager_
    /\ SolveWithParameters (build_routing data manager_) search_params
       = Returned (Some solution)
    /\ parse_solution (build_routing data manager_) solution (drivers data) fuel
         (List.length (drivers data)) = Returned routes.
Proof.
  unfold optimize, optimize_body.
  destruct (new_RoutingIndexManager _ _ _ _) as [manager_| |] eqn:Em;
    cbn [bind try_except]; try discriminate.
  destruct (SolveWithParameters _ _) as [[solution|]| |] eqn:Es;
    cbn [bind try_except]; try discriminate.
  destruct (parse_solution _ _ _ _ _) as [routes'| |] eqn:Ep;
    cbn [bind try_except]; try discriminate.
  intros [= <-]. exists manager_, solution. repeat split; assumption.
Qed.

End Properties.

(** C9. The time limit handed to the solver is 30 seconds and the windows
    of the model are those of the jobs, 900 seconds either side of the
    pickup time, followed by those of the drivers, for every request and
    every index manager: neither depends on anything the handler is given. *)
Theorem budget_and_tolerance_fixed (data : Request) (manager_ : RoutingIndexManager) :
  time_limit_seconds search_params = Some 30
  /\ cumul_ranges (build_routing data manager_)
     = flat_map (fun job =>
                   [(Time, NodeToIndex manager_ (pickup_node job),
                     (pickup_time job - 900, pickup_time job + 900));
                    (Time, NodeToIndex manager_ (dropoff_node job), (0, 86400))])
                (jobs data)
       ++ flat_map (fun entry =>
                      [(Time, GetStartIndex manager_ (fst entry),
                        (shift_start (snd entry), shift_start (snd entry)));
                       (Time, GetEndIndex manager_ (fst entry),
                        (0, shift_end (snd entry)))])
                   (enumerate (drivers data)).
Proof.
  split; [reflexivity|].
  now destruct (build_routing_fields manager_ data) as (_ & _ & Hr & _).
Qed.

(** C9, as stated, fails: no request and no index manager makes the handler
    hand the solver a time limit other than 30 seconds, or give a job a
    pickup window other than 900 seconds either side of its pickup time. *)
Lemma budget_and_tolerance_not_configurable :
  ~ (exists (data : Request) (manager_ : RoutingIndexManager),
        time_limit_seconds search_params <> Some 30
        \/ exists job,
             In job (jobs data)
             /\ (pickup_tw job <> (pickup_time job - 900, pickup_time job + 900)
                 \/ ~ In (Time, NodeToIndex manager_ (pickup_node job), pickup_tw job)
                         (cumul_ranges (build_routing data manager_)))).
Proof.
  intros (data & manager_ & [Hlimit | (job & Hjob & [Htw | Hin])]).
  - now apply Hlimit.
  - now apply Htw.
  - apply Hin. destruct (build_routing_fields manager_ data) as (_ & _ & -> & _).
    apply in_or_app. left. apply in_flat_map. exists job. split; [exact Hjob | now left].
Qed.

(** C10. When the node of an index occurs in several jobs, the demand at
    that index is that of the first job of the list with this node as its
    pickup or dropoff: its passengers if the node is its pickup, otherwise
    minus its passengers.  The jobs after it play no part. *)
Theorem demand_of_first_matching_job
    (manager_ : RoutingIndexManager) (before after : list Job) (job : Job)
    (from_index : Z) :
  let node := IndexToNode manager_ from_index in
  (forall j, In j before -> node <> pickup_node j /\ node <> dropoff_node j) ->
  node = pickup_node job \/ node = dropoff_node job ->
  demand_callback manager_ (before ++ job :: after) from_index
  = if node =? pickup_node job then passengers job else - passengers job.
Proof.
  intros node Hbefore Hjob. unfold demand_callback. fold node.
  induction before as [|j before IH]; cbn [app demand_of_node].
  - destruct (node =? pickup_node job) eqn:Ep; [reflexivity|].
    destruct Hjob as [Hp | Hd]; [apply Z.eqb_neq in Ep; contradiction|].
    apply Z.eqb_eq in Hd. now rewrite Hd.
  - destruct (Hbefore j (or_introl eq_refl)) as [Hp Hd].
    apply Z.eqb_neq in Hp, Hd. rewrite Hp, Hd.
    apply IH. intros j' Hj'. apply Hbefore. now right.
Qed.

(* ------------------------------------------------------------------ *)
(** ** The properties on the concrete instance *)

Lemma candidate_solver_sound (candidate : Assignment) :
  forall r p a,
    ScenarioA.candidate_solver candidate r p = Returned (Some a) -> satisfies r a = true.
Proof.
  intros r p a. unfold ScenarioA.candidate_solver.
  destruct (satisfies r candidate) eqn:E; intros [= <-]. exact E.
Qed.

Lemma new_manager_vehicles :
  forall n k starts ends m,
    ScenarioA.new_manager n k starts ends = Returned m -> GetNumberOfVehicles m = k.
Proof.
  intros n k starts ends m. unfold ScenarioA.new_manager.
  destruct (n =? 3)%nat; cbn [andb]; [|discriminate].
  destruct (k =? 1)%nat eqn:Ek; [|discriminate]. apply Nat.eqb_eq in Ek.
  repeat match goal with
         | |- context [match ?x with _ => _ end] => destruct x; try discriminate
         end.
  intros [= <-]. now rewrite Ek.
Qed.

(** The handler on the one-driver, one-job request: one route, depot,
    pickup, dropoff, depot. *)
Example scenario_A_response :
  optimize ScenarioA.new_manager (ScenarioA.candidate_solver ScenarioA.assignment_A)
           4 ScenarioA.request_A
  = Returned
      (mkResponse
         (RoutesBody
            [mkRouteEntry "d1" "Ayse" "555"
               [mkStop 0 0; mkStop 1 100; mkStop 2 600; mkStop 0 600]])
         200).
Proof. vm_compute. reflexivity. Qed.

(** The model of that request has other solutions: the dimension's slack
    lets the vehicle reach the dropoff later than pickup time plus travel
    time. *)
Example scenario_A_waiting_response :
  optimize ScenarioA.new_manager
           (ScenarioA.candidate_solver ScenarioA.assignment_A_waiting)
           4 ScenarioA.request_A
  = Returned
      (mkResponse
         (RoutesBody
            [mkRouteEntry "d1" "Ayse" "555"
               [mkStop 0 0; mkStop 1 100; mkStop 2 700; mkStop 0 700]])
         200).
Proof. vm_compute. reflexivity. Qed.

Lemma pickup_dropoff_same_vehicle_in_order_witness :
  In (mkJob 1 2 1 1000) (jobs ScenarioA.request_A)
  /\ (VehicleVar ScenarioA.assignment_A 1 = VehicleVar ScenarioA.assignment_A 2
      /\ CumulVar ScenarioA.assignment_A Time 1 <= CumulVar ScenarioA.assignment_A Time 2
      /\ (0 <= 2 < 4 ->
          forall v p,
            (v < 1)%nat ->
            path_of (build_routing ScenarioA.request_A ScenarioA.manager_A)
                    ScenarioA.assignment_A v = Some p ->
            In 1 p -> In 2 p)).
Proof.
  split; [now left|].
  refine (pickup_dropoff_same_vehicle_in_order
            (ScenarioA.candidate_solver ScenarioA.assignment_A)
            (candidate_solver_sound ScenarioA.assignment_A)
            ScenarioA.request_A ScenarioA.manager_A ScenarioA.assignment_A
            (mkJob 1 2 1 1000) _ _).
  - vm_compute. reflexivity.
  - now left.
Defined.

Lemma load_within_capacity_witness :
  nth_error (drivers ScenarioA.request_A) 0 = Some (mkDriver "d1" "Ayse" "555" 0 0 4 0 36000)
  /\ exists p,
       path_of (build_routing ScenarioA.request_A ScenarioA.manager_A)
               ScenarioA.assignment_A 0 = Some p
       /\ forall k index, nth_error p k = Some index ->
            CumulVar ScenarioA.assignment_A Capacity index
            = sumZ (map (demand_callback ScenarioA.manager_A (jobs ScenarioA.request_A))
                        (firstn k p))
            /\ 0 <= CumulVar ScenarioA.assignment_A Capacity index <= 4.
Proof.
  split; [reflexivity|].
  refine (load_within_capacity
            ScenarioA.new_manager (ScenarioA.candidate_solver ScenarioA.assignment_A)
            new_manager_vehicles (candidate_solver_sound ScenarioA.assignment_A)
            ScenarioA.request_A ScenarioA.manager_A ScenarioA.assignment_A
            0%nat (mkDriver "d1" "Ayse" "555" 0 0 4 0 36000) _ _ _).
  - vm_compute. reflexivity.
  - vm_compute. reflexivity.
  - reflexivity.
Defined.

Lemma time_windows_and_shifts_witness :
  (forall job, In job (jobs ScenarioA.request_A) ->
     pickup_time job - 900
     <= CumulVar ScenarioA.assignment_A Time
          (NodeToIndex ScenarioA.manager_A (pickup_node job))
     <= pickup_time job + 900)
  /\ (forall v driver, nth_error (drivers ScenarioA.request_A) v = Some driver ->
        CumulVar ScenarioA.assignment_A Time
          (Start (build_routing ScenarioA.request_A ScenarioA.manager_A) v)
        = shift_start driver
        /\ CumulVar ScenarioA.assignment_A Time
             (End (build_routing ScenarioA.request_A ScenarioA.manager_A) v)
           <= shift_end driver).
Proof.
  refine (time_windows_and_shifts
            (ScenarioA.candidate_solver ScenarioA.assignment_A)
            (candidate_solver_sound ScenarioA.assignment_A)
            ScenarioA.request_A ScenarioA.manager_A ScenarioA.assignment_A _).
  vm_compute. reflexivity.
Defined.

Lemma no_solution_rejected_witness :
  ScenarioA.candidate_solver ScenarioA.assignment_A
    (build_routing ScenarioA.request_B ScenarioA.manager_A) search_params = Returned None
  /\ optimize ScenarioA.new_manager (ScenarioA.candidate_solver ScenarioA.assignment_A)
              4 ScenarioA.request_B
     = Returned (mkResponse (ErrorBody no_solution_message) 400).
Proof.
  split; [vm_compute; reflexivity|].
  refine (no_solution_rejected
            ScenarioA.new_manager (ScenarioA.candidate_solver ScenarioA.assignment_A)
            4 ScenarioA.request_B ScenarioA.manager_A _ _).
  - vm_compute. reflexivity.
  - vm_compute. reflexivity.
Defined.

Lemma unused_vehicles_dropped_routes_tagged_witness :
  exists rs : list (list Stop),
    Forall2 (fun v r =>
               vehicle_route (build_routing ScenarioA.request_A ScenarioA.manager_A)
                             ScenarioA.assignment_A 4 v = Returned r)
            (seq 0 (List.length (drivers ScenarioA.request_A))) rs
    /\ optimize ScenarioA.new_manager (ScenarioA.candidate_solver ScenarioA.assignment_A)
                4 ScenarioA.request_A
       = Returned (mkResponse
                     (RoutesBody
                        (map tagged
                           (filter (fun dr => (2 <? List.length (snd dr))%nat)
                                   (combine (drivers ScenarioA.request_A) rs))))
                     200).
Proof.
  refine (unused_vehicles_dropped_routes_tagged
            ScenarioA.new_manager (ScenarioA.candidate_solver ScenarioA.assignment_A)
            new_manager_vehicles (candidate_solver_sound ScenarioA.assignment_A)
            4 ScenarioA.request_A ScenarioA.manager_A ScenarioA.assignment_A _ _ _).
  - vm_compute. reflexivity.
  - vm_compute. reflexivity.
  - cbn. lia.
Defined.

(** Node 1 is the pickup of the second job and the dropoff of the third:
    the demand is the second job's passenger, not 1 - 2. *)
Lemma demand_of_first_matching_job_witness :
  demand_callback ScenarioA.manager_A
    ([mkJob 5 6 3 0] ++ mkJob 1 2 1 1000 :: [mkJob 7 1 2 2000]) 1 = 1.
Proof.
  refine (demand_of_first_matching_job ScenarioA.manager_A
            [mkJob 5 6 3 0] [mkJob 7 1 2 2000] (mkJob 1 2 1 1000) 1 _ _).
  - intros j [<- | []]. cbn. split; discriminate.
  - left. reflexivity.
Defined.

(* ------------------------------------------------------------------ *)
(** ** More about the loops and the paths *)

Lemma getitem_nat_inv {A : Type} (l : list A) (v : nat) (x : A) :
  getitem l (Z.of_nat v) = Returned x -> nth_error l v = Some x.
Proof.
  unfold getitem. destruct (Z.of_nat v <? 0) eqn:En; [apply Z.ltb_lt in En; lia|].
  destruct (_ && _); [|discriminate]. rewrite Nat2Z.id.
  destruct (nth_error l v); [|discriminate]. now intros [= <-].
Qed.

Section Loops.

Variable r : RoutingModel.
Variable a : Assignment.
Variable drivers_ : list Driver.

(** What the [while] loop returns is the path it followed. *)
Lemma walk_returned_path (fuel : nat) :
  forall (i : Z) (acc route : list Stop) (index : Z),
    walk r a fuel i acc = Returned (route, index) ->
    exists p,
      path_from fuel r a i = Some p
      /\ route = acc ++ map (visit r a) (removelast p)
      /\ index = last p i.
Proof.
  induction fuel as [|fuel IH]; intros i acc route index; cbn [walk path_from];
    [discriminate|].
  destruct (IsEnd r i).
  - intros [= <- <-]. exists [i]. cbn. now rewrite app_nil_r.
  - intros Hw. destruct (IH _ _ _ _ Hw) as (p & Hp & -> & ->).
    rewrite Hp. cbn [option_map]. exists (i :: p).
    destruct (path_from_head _ _ _ _ _ Hp) as [q ->].
    split; [reflexivity|]. rewrite <- app_assoc. split; [reflexivity|].
    apply (last_nonempty_default q _ (NextVar a i) i).
Qed.

Lemma vehicle_route_returned (fuel v : nat) (rt : list Stop) :
  vehicle_route r a fuel v = Returned rt ->
  exists p, path_from fuel r a (Start r v) = Some p /\ rt = map (visit r a) p.
Proof.
  unfold vehicle_route.
  destruct (walk r a fuel (Start r v) []) as [[route index]| |] eqn:Hw; cbn [bind];
    try discriminate.
  intros [= <-]. destruct (walk_returned_path _ _ _ _ _ Hw) as (p & Hp & -> & ->).
  exists p. split; [exact Hp|]. destruct (path_from_head _ _ _ _ _ Hp) as [q ->].
  cbn [app]. now rewrite map_removelast_last.
Qed.





(** Every entry the loop over the vehicles adds is the route of one of the
    vehicles, longer than 2, with the tags of that vehicle's driver. *)
Lemma parse_vehicles_returned (fuel : nat) (vs : list nat) :
  forall (acc routes : list RouteEntry),
    parse_vehicles r a drivers_ fuel vs acc = Returned routes ->
    exists new,
      routes = acc ++ new
      /\ (List.length new <= List.length vs)%nat
      /\ forall e, In e new ->
           exists v d,
             In v vs
             /\ nth_error drivers_ v = Some d
             /\ vehicle_route r a fuel v = Returned (route e)
             /\ e = tagged (d, route e)
             /\ (2 < List.length (route e))%nat.
Proof.
  induction vs as [|v vs IH]; intros acc routes; cbn [parse_vehicles].
  - intros [= <-]. exists []. rewrite app_nil_r. split; [reflexivity|].
    split; [cbn; lia|]. intros e [].
  - unfold parse_vehicle.
    destruct (vehicle_route r a fuel v) as [rt| |] eqn:Hrt; cbn [bind];
      try discriminate.
    destruct (2 <? List.length rt)%nat eqn:Hlen.
    + destruct (getitem drivers_ (Z.of_nat v)) as [d| |] eqn:Hd; cbn [bind];
        try discriminate.
      intros Hp. destruct (IH _ _ Hp) as (new & -> & Hn & Hnew).
      exists (tagged (d, rt) :: new). rewrite <- app_assoc. split; [reflexivity|].
      split; [cbn; lia|]. intros e [<- | He].
      * exists v, d. cbn [tagged route fst snd]. apply Nat.ltb_lt in Hlen.
        repeat split; try assumption; [now left | now apply getitem_nat_inv].
      * destruct (Hnew e He) as (v' & d' & Hv' & H'). exists v', d'.
        split; [now right | exact H'].
    + cbn [bind]. intros Hp. destruct (IH _ _ Hp) as (new & -> & Hn & Hnew).
      exists new. split; [reflexivity|]. split; [cbn; lia|].
      intros e He. destruct (Hnew e He) as (v' & d' & Hv' & H'). exists v', d'.
      split; [now right | exact H'].
Qed.

(** On a path, an index that is not an end index has a successor. *)
Lemma path_from_successor (fuel : nat) :
  forall (i : Z) (p : list Z) (k : nat) (j : Z),
    path_from fuel r a i = Some p ->
    nth_error p k = Some j -> IsEnd r j = false ->
    exists j', nth_error p (S k) = Some j'.
Proof.
  induction fuel as [|fuel IH]; intros i p k j; cbn [path_from]; [discriminate|].
  destruct (IsEnd r i) eqn:Ei.
  - intros [= <-] Hk Hj. destruct k as [|k]; cbn in Hk.
    + injection Hk as <-. congruence.
    + now destruct k.
  - destruct (path_from fuel r a (NextVar a i)) as [q|] eqn:Hq; cbn [option_map];
      [|discriminate].
    intros [= <-] Hk Hj. destruct k as [|k].
    + destruct (path_from_head _ _ _ _ _ Hq) as [q' ->]. now exists (NextVar a i).
    + cbn in Hk. apply (IH _ _ _ _ Hq Hk Hj).
Qed.

End Loops.

(** From one stop of a path to the next, a dimension grows by the transit
    plus a slack within the allowed one. *)
Lemma dimension_along_step (d : Dimension) (cumul : Z -> Z) (v : nat) (p : list Z) :
  dimension_along d cumul v p = true ->
  forall k i j, nth_error p k = Some i -> nth_error p (S k) = Some j ->
    exists t, transit d i j = Returned t
              /\ cumul i + t <= cumul j <= cumul i + t + slack_max d.
Proof.
  induction p as [|i0 p IH]; intros H k i j Hi Hj; [now destruct k|].
  apply dimension_along_cons in H. destruct H as (_ & Hstep & Hrest).
  destruct k as [|k]; cbn in Hi, Hj.
  - injection Hi as <-. destruct p as [|j0 p']; [discriminate|].
    cbn in Hj. injection Hj as <-. exact Hstep.
  - now apply (IH Hrest k).
Qed.

Lemma nth_error_map_inv {A B : Type} (f : A -> B) (l : list A) (k : nat) (y : B) :
  nth_error (map f l) k = Some y -> exists x, nth_error l k = Some x /\ y = f x.
Proof.
  revert k; induction l as [|x l IH]; intros [|k] Hk; try discriminate; cbn in Hk.
  - injection Hk as <-. now exists x.
  - now apply IH.
Qed.

(* ------------------------------------------------------------------ *)
(** ** The two callbacks *)

Lemma getitem_in_range {A : Type} (l : list A) (i : Z) :
  0 <= i < Z.of_nat (List.length l) ->
  exists x, nth_error l (Z.to_nat i) = Some x /\ getitem l i = Returned x.
Proof.
  intros Hi. unfold getitem.
  destruct (i <? 0) eqn:En; [apply Z.ltb_lt in En; lia|].
  destruct (0 <=? i) eqn:E0; [|apply Z.leb_gt in E0; lia].
  destruct (i <? Z.of_nat (List.length l)) eqn:E1; [|apply Z.ltb_ge in E1; lia].
  cbn [andb]. destruct (nth_error l (Z.to_nat i)) as [x|] eqn:Ex.
  - now exists x.
  - apply nth_error_None in Ex. lia.
Qed.

Lemma getitem_too_large {A : Type} (l : list A) (i : Z) :
  Z.of_nat (List.length l) <= i -> getitem l i = Raised "list index out of range".
Proof.
  intros Hi. unfold getitem.
  destruct (i <? 0) eqn:En; [apply Z.ltb_lt in En; lia|].
  destruct (i <? Z.of_nat (List.length l)) eqn:E1; [apply Z.ltb_lt in E1; lia|].
  now rewrite andb_false_r.
Qed.

(** On a square matrix, and for indices whose nodes are nodes of the matrix,
    [time_callback] raises nothing and returns the entry of the matrix at
    the two nodes. *)
Theorem time_callback_square
    (manager_ : RoutingIndexManager) (time_matrix_ : list (list Z))
    (from_index to_index : Z) :
  let n := Z.of_nat (List.length time_matrix_) in
  Forall (fun row => Z.of_nat (List.length row) = n) time_matrix_ ->
  0 <= IndexToNode manager_ from_index < n ->
  0 <= IndexToNode manager_ to_index < n ->
  exists row t,
    nth_error time_matrix_ (Z.to_nat (IndexToNode manager_ from_index)) = Some row
    /\ nth_error row (Z.to_nat (IndexToNode manager_ to_index)) = Some t
    /\ time_callback manager_ time_matrix_ from_index to_index = Returned t.
Proof.
  intros n Hsq Hfrom Hto. unfold time_callback.
  destruct (getitem_in_range time_matrix_ _ Hfrom) as (row & Hrow & ->).
  cbn [bind]. rewrite Forall_forall in Hsq.
  pose proof (Hsq row (nth_error_In _ _ Hrow)) as Hlen.
  destruct (getitem_in_range row (IndexToNode manager_ to_index)) as (t & Ht & ->);
    [lia|].
  now exists row, t.
Qed.

(** [time_callback] raises IndexError when the node of the first index is
    past the last row of the matrix, or the node of the second index is past
    the end of the row (a matrix that is not square). *)
Theorem time_callback_out_of_range_raises
    (manager_ : RoutingIndexManager) (time_matrix_ : list (list Z))
    (from_index to_index : Z) :
  Z.of_nat (List.length time_matrix_) <= IndexToNode manager_ from_index
  \/ (exists row,
        getitem time_matrix_ (IndexToNode manager_ from_index) = Returned row
        /\ Z.of_nat (List.length row) <= IndexToNode manager_ to_index) ->
  time_callback manager_ time_matrix_ from_index to_index
  = Raised "list index out of range".
Proof.
  unfold time_callback. intros [Hfrom | (row & -> & Hto)].
  - now rewrite getitem_too_large.
  - cbn [bind]. now apply getitem_too_large.
Qed.

Lemma demand_of_node_unrelated (jobs_ : list Job) (node_ : Z) :
  (forall job, In job jobs_ -> node_ <> pickup_node job /\ node_ <> dropoff_node job) ->
  demand_of_node jobs_ node_ = 0.
Proof.
  induction jobs_ as [|j jobs_ IH]; intros H; cbn [demand_of_node]; [reflexivity|].
  destruct (H j (or_introl eq_refl)) as [Hp Hd].
  apply Z.eqb_neq in Hp, Hd. rewrite Hp, Hd. apply IH.
  intros job Hjob. apply H. now right.
Qed.

Lemma demand_of_node_distinct (jobs_ : list Job) (job : Job) :
  NoDup (flat_map (fun j => [pickup_node j; dropoff_node j]) jobs_) ->
  In job jobs_ ->
  demand_of_node jobs_ (pickup_node job) = passengers job
  /\ demand_of_node jobs_ (dropoff_node job) = - passengers job.
Proof.
  induction jobs_ as [|j jobs_ IH]; intros Hnd Hin; [destruct Hin|].
  cbn [flat_map app] in Hnd. inversion Hnd as [|? ? Hp Hnd']; subst.
  inversion Hnd' as [|? ? Hd Hnd'']; subst. cbn [demand_of_node].
  destruct Hin as [<- | Hin].
  - rewrite Z.eqb_refl. split; [reflexivity|].
    destruct (dropoff_node j =? pickup_node j) eqn:E.
    + apply Z.eqb_eq in E. exfalso. apply Hp. left. now symmetry.
    + now rewrite Z.eqb_refl.
  - assert (Hnodes : forall x, In x [pickup_node job; dropoff_node job] ->
                               x <> pickup_node j /\ x <> dropoff_node j).
    { intros x Hx.
      assert (Hx' : In x (flat_map (fun j0 => [pickup_node j0; dropoff_node j0]) jobs_))
        by (apply in_flat_map; now exists job).
      split; intros ->; [apply Hp; now right | now apply Hd]. }
    destruct (Hnodes (pickup_node job) (or_introl eq_refl)) as [H1 H2].
    destruct (Hnodes (dropoff_node job) (or_intror (or_introl eq_refl))) as [H3 H4].
    apply Z.eqb_neq in H1, H2, H3, H4. rewrite H1, H2, H3, H4.
    now apply IH.
Qed.

(** When the pickup and dropoff nodes of the jobs are all different,
    [demand_callback] gives the passengers of a job at an index of its
    pickup node and minus its passengers at an index of its dropoff node;
    at an index whose node belongs to no job it gives 0, whatever the jobs. *)
Theorem demand_callback_distinct_nodes
    (manager_ : RoutingIndexManager) (jobs_ : list Job) (from_index : Z) :
  let node_ := IndexToNode manager_ from_index in
  ((forall job, In job jobs_ -> node_ <> pickup_node job /\ node_ <> dropoff_node job) ->
   demand_callback manager_ jobs_ from_index = 0)
  /\ (NoDup (flat_map (fun j => [pickup_node j; dropoff_node j]) jobs_) ->
      forall job, In job jobs_ ->
        (node_ = pickup_node job ->
         demand_callback manager_ jobs_ from_index = passengers job)
        /\ (node_ = dropoff_node job ->
            demand_callback manager_ jobs_ from_index = - passengers job)).
Proof.
  intros node_. unfold demand_callback. fold node_. split.
  - apply demand_of_node_unrelated.
  - intros Hnd job Hjob.
    destruct (demand_of_node_distinct jobs_ job Hnd Hjob) as [Hp Hd].
    split; intros ->; assumption.
Qed.

(** *** The rest of the recorded model *)




Lemma last_map {A B : Type} (f : A -> B) (l : list A) (x d : A) (d' : B) :
  last (map f (x :: l)) d' = f (last (x :: l) d).
Proof.
  revert x; induction l as [|y l IH]; intros x; [reflexivity|].
  change (last (map f (y :: l)) d' = f (last (y :: l) d)). apply IH.
Qed.

Lemma last_cons_self {A : Type} (l : list A) (x : A) :
  last l x = last (x :: l) x.
Proof. now destruct l. Qed.

(* ------------------------------------------------------------------ *)
(** ** The responses of the handler *)

Section Responses.

Variable new_RoutingIndexManager :
  nat -> nat -> list Z -> list Z -> Outcome RoutingIndexManager.
Variable SolveWithParameters :
  RoutingModel -> RoutingSearchParameters -> Outcome (option Assignment).

(** A response of the handler is a list of routes with status 200, the fixed
    message with status 400, or the text of an exception with status 500. *)
Theorem optimize_response_forms (fuel : nat) (data : Request) (resp : Response) :
  optimize new_RoutingIndexManager SolveWithParameters fuel data = Returned resp ->
  (exists routes, resp = mkResponse (RoutesBody routes) 200)
  \/ resp = mkResponse (ErrorBody no_solution_message) 400
  \/ (exists e, resp = mkResponse (ErrorBody e) 500).
Proof.
  unfold optimize, optimize_body.
  destruct (new_RoutingIndexManager _ _ _ _) as [manager_|e|]; cbn [bind try_except];
    [| intros [= <-]; right; right; now exists e | discriminate].
  destruct (SolveWithParameters _ _) as [[solution|]|e|]; cbn [bind try_except];
    [| intros [= <-]; now (right; left)
     | intros [= <-]; right; right; now exists e | discriminate].
  destruct (parse_solution _ _ _ _ _) as [routes|e|]; cbn [bind try_except];
    [intros [= <-]; left; now exists routes
    | intros [= <-]; right; right; now exists e | discriminate].
Qed.

(** An exception raised while the index manager is built, or by the solver,
    ends the request with status 500 and the text of the exception. *)
Theorem library_exception_reported (fuel : nat) (data : Request) (e : string) :
  new_RoutingIndexManager (List.length (time_matrix data)) (List.length (drivers data))
    (map start_idx (drivers data)) (map end_idx (drivers data)) = Raised e
  \/ (exists manager_,
        new_RoutingIndexManager (List.length (time_matrix data))
          (List.length (drivers data))
          (map start_idx (drivers data)) (map end_idx (drivers data)) = Returned manager_
        /\ SolveWithParameters (build_routing data manager_) search_params = Raised e) ->
  optimize new_RoutingIndexManager SolveWithParameters fuel data
  = Returned (mkResponse (ErrorBody e) 500).
Proof.
  unfold optimize, optimize_body. intros [-> | (manager_ & -> & Hs)]; [reflexivity|].
  cbn [bind]. now rewrite Hs.
Qed.


(** The routes of a success response, whatever the solver returned: there
    are no more of them than drivers, each has more than 2 stops, and each
    carries the id, name and phone of a driver of the request. *)
Theorem success_routes_come_from_drivers
    (fuel : nat) (data : Request) (routes : list RouteEntry) :
  optimize new_RoutingIndexManager SolveWithParameters fuel data
  = Returned (mkResponse (RoutesBody routes) 200) ->
  (List.length routes <= List.length (drivers data))%nat
  /\ forall e, In e routes ->
       (2 < List.length (route e))%nat
       /\ exists driver,
            In driver (drivers data)
            /\ driver_id e = id driver
            /\ driver_name e = name driver
            /\ driver_phone e = phone driver.
Proof.
  intros Hopt.
  destruct (optimize_success_inv _ _ _ _ _ Hopt) as (manager_ & solution & _ & _ & Hp).
  unfold parse_solution in Hp.
  destruct (parse_vehicles_returned _ _ _ _ _ _ _ Hp) as (new & -> & Hlen & Hnew).
  cbn [app]. rewrite length_seq in Hlen. split; [exact Hlen|].
  intros e He. destruct (Hnew e He) as (v & d & _ & Hd & _ & Htag & Hlong).
  split; [exact Hlong|]. exists d. rewrite Htag. cbn.
  repeat split. eapply nth_error_In; eassumption.
Qed.

(** The manager is built for the number of vehicles it is asked for. *)
Hypothesis manager_vehicles :
  forall n k starts ends m,
    new_RoutingIndexManager n k starts ends = Returned m ->
    GetNumberOfVehicles m = k.

(** An assignment the solver returns is a solution of the model. *)
Hypothesis solver_sound :
  forall r p a,
    SolveWithParameters r p = Returned (Some a) -> satisfies r a = true.

(** Where an entry of a success response comes from: a driver, and the path
    of the driver's vehicle in a solution of the model. *)
Lemma success_route_origin
    (fuel : nat) (data : Request) (routes : list RouteEntry) (e : RouteEntry) :
  optimize new_RoutingIndexManager SolveWithParameters fuel data
  = Returned (mkResponse (RoutesBody routes) 200) ->
  In e routes ->
  exists manager_ solution v driver p,
    new_RoutingIndexManager (List.length (time_matrix data)) (List.length (drivers data))
      (map start_idx (drivers data)) (map end_idx (drivers data)) = Returned manager_
    /\ satisfies (build_routing data manager_) solution = true
    /\ nth_error (drivers data) v = Some driver
    /\ path_of (build_routing data manager_) solution v = Some p
    /\ e = tagged (driver, map (visit (build_routing data manager_) solution) p).
Proof.
  intros Hopt He.
  destruct (optimize_success_inv _ _ _ _ _ Hopt) as (manager_ & solution & Hm & Hs & Hp).
  unfold parse_solution in Hp.
  destruct (parse_vehicles_returned _ _ _ _ _ _ _ Hp) as (new & -> & _ & Hnew).
  destruct (Hnew e He) as (v & d & Hv & Hd & Hrt & Htag & _).
  apply in_seq in Hv. set (routing := build_routing data manager_) in *.
  pose proof (solver_sound _ _ _ Hs) as Hsat.
  destruct (build_routing_fields manager_ data) as (Hmg & _). fold routing in Hmg.
  destruct (solution_route routing solution Hsat v) as (p & Hpath & _);
    [rewrite Hmg, (manager_vehicles _ _ _ _ _ Hm); lia|].
  destruct (vehicle_route_returned _ _ _ _ _ Hrt) as (p' & Hp' & Hrt').
  assert (p' = p).
  { unfold path_of in Hpath.
    apply (path_from_more_fuel _ _ _ (Nat.max fuel (GetNumberOfIndices (manager routing))))
      in Hp', Hpath; [|lia|lia]. congruence. }
  subst p'. exists manager_, solution, v, d, p.
  repeat split; try assumption. now rewrite Htag, Hrt'.
Qed.

(** The arrival times of every route of a success response lie between 0
    and 86400, and from each stop to the next they grow by the travel time
    between the two nodes plus a wait of at most 1800 seconds. *)
Theorem success_routes_follow_travel_times
    (fuel : nat) (data : Request) (routes : list RouteEntry) (e : RouteEntry) :
  optimize new_RoutingIndexManager SolveWithParameters fuel data
  = Returned (mkResponse (RoutesBody routes) 200) ->
  In e routes ->
  (forall s, In s (route e) -> 0 <= arrival_time s <= 86400)
  /\ forall k s1 s2,
       nth_error (route e) k = Some s1 -> nth_error (route e) (S k) = Some s2 ->
       exists t,
         travel_time (time_matrix data) (node s1) (node s2) = Returned t
         /\ arrival_time s1 + t <= arrival_time s2 <= arrival_time s1 + t + 1800.
Proof.
  intros Hopt He.
  destruct (success_route_origin _ _ _ _ Hopt He)
    as (manager_ & solution & v & driver & p & Hm & Hsat & Hv & Hpath & ->).
  set (routing := build_routing data manager_) in *.
  destruct (build_routing_fields manager_ data) as (Hmg & Hd & _). fold routing in Hmg, Hd.
  destruct (solution_route routing solution Hsat v) as (p0 & Hp0 & _ & _ & Hdim).
  { rewrite Hmg, (manager_vehicles _ _ _ _ _ Hm). apply nth_error_Some. congruence. }
  rewrite Hpath in Hp0. injection Hp0 as <-.
  specialize (Hdim (Time, time_dimension manager_ data)).
  rewrite Hd in Hdim. specialize (Hdim (or_introl eq_refl)).
  unfold dimension_holds in Hdim.
  cbn [fst snd time_dimension fix_start_cumul_to_zero andb] in Hdim.
  cbn [tagged route snd]. split.
  - intros s Hs. apply in_map_iff in Hs. destruct Hs as (i & <- & Hi).
    apply (dimension_along_bounds _ _ _ _ Hdim i Hi).
  - intros k s1 s2 H1 H2.
    apply nth_error_map_inv in H1, H2.
    destruct H1 as (i & Hi & ->). destruct H2 as (j & Hj & ->).
    destruct (dimension_along_step _ _ _ _ Hdim k i j Hi Hj) as (t & Ht & Hstep).
    exists t. split; [|exact Hstep].
    unfold visit. cbn [node]. rewrite Hmg. exact Ht.
Qed.

(** Every route of a success response starts at the shift start of its
    driver and ends no later than the driver's shift end. *)
Theorem success_routes_within_shift
    (fuel : nat) (data : Request) (routes : list RouteEntry) (e : RouteEntry) :
  optimize new_RoutingIndexManager SolveWithParameters fuel data
  = Returned (mkResponse (RoutesBody routes) 200) ->
  In e routes ->
  exists driver first rest,
    In driver (drivers data)
    /\ e = tagged (driver, first :: rest)
    /\ arrival_time first = shift_start driver
    /\ arrival_time (last rest first) <= shift_end driver.
Proof.
  intros Hopt He.
  destruct (success_route_origin _ _ _ _ Hopt He)
    as (manager_ & solution & v & driver & p & Hm & Hsat & Hv & Hpath & ->).
  set (routing := build_routing data manager_) in *.
  destruct (build_routing_fields manager_ data) as (Hmg & _ & Hr & _).
  fold routing in Hmg, Hr.
  destruct (solution_route routing solution Hsat v) as (p0 & Hp0 & Hlast & _).
  { rewrite Hmg, (manager_vehicles _ _ _ _ _ Hm). apply nth_error_Some. congruence. }
  rewrite Hpath in Hp0. injection Hp0 as <-.
  unfold path_of in Hpath. destruct (path_from_head _ _ _ _ _ Hpath) as [q ->].
  assert (Hg : forall g, In g (shift_ranges manager_ (v, driver)) ->
                         In g (cumul_ranges routing)).
  { intros g Hg. rewrite Hr. apply in_or_app. right. apply in_flat_map.
    exists (v, driver). split; [now apply enumerate_In | assumption]. }
  pose proof (solution_range routing solution Hsat _ _ _ _
                (Hg _ (or_introl eq_refl))) as Hstart.
  pose proof (solution_range routing solution Hsat _ _ _ _
                (Hg _ (or_intror (or_introl eq_refl)))) as Hend.
  cbn [fst snd] in Hstart, Hend.
  exists driver, (visit routing solution (Start routing v)),
    (map (visit routing solution) q).
  split; [eapply nth_error_In; eassumption|]. split; [reflexivity|].
  unfold Start, End in *. rewrite Hmg in *. split.
  - cbn. lia.
  - rewrite (last_cons_self (map (visit routing solution) q)).
    change (visit routing solution (GetStartIndex manager_ v)
            :: map (visit routing solution) q)
      with (map (visit routing solution) (GetStartIndex manager_ v :: q)).
    rewrite (last_map _ q _ (GetStartIndex manager_ v)), Hlast. cbn. lia.
Qed.

End Responses.

(* ------------------------------------------------------------------ *)
(** ** Requests that cannot be served, and termination *)

Section Rejections.

Variable new_RoutingIndexManager :
  nat -> nat -> list Z -> list Z -> Outcome RoutingIndexManager.
Variable SolveWithParameters :
  RoutingModel -> RoutingSearchParameters -> Outcome (option Assignment).

(** The manager is built for the number of vehicles it is asked for. *)
Hypothesis manager_vehicles :
  forall n k starts ends m,
    new_RoutingIndexManager n k starts ends = Returned m ->
    GetNumberOfVehicles m = k.

(** An assignment the solver returns is a solution of the model. *)
Hypothesis solver_sound :
  forall r p a,
    SolveWithParameters r p = Returned (Some a) -> satisfies r a = true.

Lemma rejected_when_unsolvable
    (fuel : nat) (data : Request) (manager_ : RoutingIndexManager)
    (answer : option Assignment) :
  new_RoutingIndexManager (List.length (time_matrix data)) (List.length (drivers data))
    (map start_idx (drivers data)) (map end_idx (drivers data)) = Returned manager_ ->
  (forall solution, satisfies (build_routing data manager_) solution = true -> False) ->
  SolveWithParameters (build_routing data manager_) search_params = Returned answer ->
  optimize new_RoutingIndexManager SolveWithParameters fuel data
  = Returned (mkResponse (ErrorBody no_solution_message) 400).
Proof.
  intros Hm Hno Hs. destruct answer as [solution|].
  - exfalso. apply (Hno solution), (solver_sound _ _ _ Hs).
  - unfold optimize, optimize_body. rewrite Hm. cbn [bind]. now rewrite Hs.
Qed.

(** A job whose pickup window lies after the shift end, or before the shift
    start, of every driver is answered with status 400, whenever the solver
    gives an answer: the model has no solution. *)
Theorem pickup_outside_every_shift_rejected
    (fuel : nat) (data : Request) (manager_ : RoutingIndexManager) (job : Job)
    (answer : option Assignment) :
  new_RoutingIndexManager (List.length (time_matrix data)) (List.length (drivers data))
    (map start_idx (drivers data)) (map end_idx (drivers data)) = Returned manager_ ->
  Forall (Forall (fun t => 0 <= t)) (time_matrix data) ->
  In job (jobs data) ->
  0 <= NodeToIndex manager_ (pickup_node job) < Z.of_nat (GetNumberOfIndices manager_) ->
  (forall driver, In driver (drivers data) ->
     pickup_time job + 900 < shift_start driver
     \/ shift_end driver < pickup_time job - 900) ->
  SolveWithParameters (build_routing data manager_) search_params = Returned answer ->
  optimize new_RoutingIndexManager SolveWithParameters fuel data
  = Returned (mkResponse (ErrorBody no_solution_message) 400).
Proof.
  intros Hm Hpos Hjob Hidx Hout Hs.
  pose proof (pickup_outside_every_shift_unsolvable
                new_RoutingIndexManager SolveWithParameters manager_vehicles solver_sound
                data manager_ job answer Hm Hpos Hjob Hidx Hout Hs) as ->.
  unfold optimize, optimize_body. rewrite Hm. cbn [bind]. now rewrite Hs.
Qed.


(** A driver whose shift ends before it starts makes the handler answer
    status 400, whenever the solver gives an answer: every vehicle, used or
    not, has a path from its start at the shift start to its end. *)
Theorem inverted_shift_rejected
    (fuel : nat) (data : Request) (manager_ : RoutingIndexManager) (driver : Driver)
    (answer : option Assignment) :
  new_RoutingIndexManager (List.length (time_matrix data)) (List.length (drivers data))
    (map start_idx (drivers data)) (map end_idx (drivers data)) = Returned manager_ ->
  Forall (Forall (fun t => 0 <= t)) (time_matrix data) ->
  In driver (drivers data) ->
  shift_end driver < shift_start driver ->
  SolveWithParameters (build_routing data manager_) search_params = Returned answer ->
  optimize new_RoutingIndexManager SolveWithParameters fuel data
  = Returned (mkResponse (ErrorBody no_solution_message) 400).
Proof.
  intros Hm Hpos Hdrv Hshift Hs.
  apply (rejected_when_unsolvable fuel data manager_ answer Hm); [|exact Hs].
  intros solution Hsat. set (routing := build_routing data manager_) in *.
  destruct (build_routing_fields manager_ data) as (Hmg & Hd & Hr & _).
  fold routing in Hmg, Hd, Hr.
  destruct (In_nth_error _ _ Hdrv) as [v Hv].
  destruct (solution_route routing solution Hsat v) as (p & Hp & Hlast & _ & Hdim).
  { rewrite Hmg, (manager_vehicles _ _ _ _ _ Hm). apply nth_error_Some. congruence. }
  specialize (Hdim (Time, time_dimension manager_ data)).
  rewrite Hd in Hdim. specialize (Hdim (or_introl eq_refl)).
  unfold dimension_holds in Hdim.
  cbn [fst snd time_dimension fix_start_cumul_to_zero andb] in Hdim.
  assert (Htr : forall i j t, transit (time_dimension manager_ data) i j = Returned t ->
                              0 <= t).
  { intros i j t. cbn [transit time_dimension]. unfold time_callback.
    destruct (getitem (time_matrix data) (IndexToNode manager_ i)) as [row| |] eqn:Er;
      cbn [bind]; try discriminate.
    intros Et. apply getitem_In in Er, Et.
    rewrite Forall_forall in Hpos. specialize (Hpos _ Er).
    rewrite Forall_forall in Hpos. now apply Hpos. }
  unfold path_of in Hp. destruct (path_from_head _ _ _ _ _ Hp) as [q ->].
  pose proof (dimension_along_monotone (time_dimension manager_ data)
                (CumulVar solution Time) v _ Htr Hdim (Start routing v)
                (or_introl eq_refl)) as Hmono.
  cbn [hd] in Hmono. rewrite Hlast in Hmono.
  assert (Hg : forall g, In g (shift_ranges manager_ (v, driver)) ->
                         In g (cumul_ranges routing)).
  { intros g Hg. rewrite Hr. apply in_or_app. right. apply in_flat_map.
    exists (v, driver). split; [now apply enumerate_In | assumption]. }
  pose proof (solution_range routing solution Hsat _ _ _ _
                (Hg _ (or_introl eq_refl))) as Hstart.
  pose proof (solution_range routing solution Hsat _ _ _ _
                (Hg _ (or_intror (or_introl eq_refl)))) as Hend.
  cbn [fst snd] in Hstart, Hend. unfold Start, End in Hmono. rewrite Hmg in Hmono. lia.
Qed.

(** When the demand at an index that has a successor exceeds the capacity of
    every driver, the handler answers status 400, whenever the solver gives
    an answer: the load on leaving that index fits no vehicle. *)
Theorem overloaded_index_rejected
    (fuel : nat) (data : Request) (manager_ : RoutingIndexManager) (index : Z)
    (answer : option Assignment) :
  new_RoutingIndexManager (List.length (time_matrix data)) (List.length (drivers data))
    (map start_idx (drivers data)) (map end_idx (drivers data)) = Returned manager_ ->
  0 <= index < Z.of_nat (GetNumberOfIndices manager_) ->
  IsEnd (build_routing data manager_) index = false ->
  (forall driver, In driver (drivers data) ->
     capacity driver < demand_callback manager_ (jobs data) index) ->
  SolveWithParameters (build_routing data manager_) search_params = Returned answer ->
  optimize new_RoutingIndexManager SolveWithParameters fuel data
  = Returned (mkResponse (ErrorBody no_solution_message) 400).
Proof.
  intros Hm Hidx Hend Hcap Hs.
  apply (rejected_when_unsolvable fuel data manager_ answer Hm); [|exact Hs].
  intros solution Hsat. set (routing := build_routing data manager_) in *.
  destruct (build_routing_fields manager_ data) as (Hmg & Hd & _). fold routing in Hmg, Hd.
  destruct (solution_visited routing solution Hsat index) as (v & p & Hv & Hp & Hin);
    [now rewrite Hmg|].
  destruct (solution_route routing solution Hsat v Hv) as (p0 & Hp0 & _ & _ & Hdim).
  rewrite Hp in Hp0. injection Hp0 as <-.
  specialize (Hdim (Capacity, capacity_dimension manager_ data)).
  rewrite Hd in Hdim. specialize (Hdim (or_intror (or_introl eq_refl))).
  unfold dimension_holds in Hdim. apply andb_true_iff in Hdim.
  destruct Hdim as [_ Halong]. cbn [fst snd] in Halong.
  destruct (In_nth_error _ _ Hin) as [k Hk].
  destruct (path_from_successor _ _ _ _ _ _ _ Hp Hk Hend) as [j Hj].
  destruct (dimension_along_step _ _ _ _ Halong k index j Hk Hj) as (t & Ht & Hstep).
  cbn [transit capacity_dimension slack_max] in Ht, Hstep. injection Ht as <-.
  pose proof (dimension_along_bounds _ _ _ _ Halong index Hin) as Hb1.
  pose proof (dimension_along_bounds _ _ _ _ Halong j (nth_error_In _ _ Hj)) as Hb2.
  unfold capacity_dimension in Hb2. cbn [vehicle_capacity] in Hb2.
  rewrite Hmg, (manager_vehicles _ _ _ _ _ Hm) in Hv.
  destruct (nth_error (drivers data) v) as [driver|] eqn:Edrv;
    [|apply nth_error_None in Edrv; lia].
  rewrite (nth_map_nth_error _ _ _ _ Edrv) in Hb2.
  specialize (Hcap driver (nth_error_In _ _ Edrv)). lia.
Qed.

(** When the library calls end and the loops are given as many steps as the
    manager has indices, the handler always gives a response: on a solution
    the [while] loop reaches the end of every vehicle's path. *)
Theorem optimize_answers (fuel : nat) (data : Request) :
  new_RoutingIndexManager (List.length (time_matrix data)) (List.length (drivers data))
    (map start_idx (drivers data)) (map end_idx (drivers data)) <> OutOfFuel ->
  (forall manager_,
     new_RoutingIndexManager (List.length (time_matrix data)) (List.length (drivers data))
       (map start_idx (drivers data)) (map end_idx (drivers data)) = Returned manager_ ->
     (GetNumberOfIndices manager_ <= fuel)%nat
     /\ SolveWithParameters (build_routing data manager_) search_params <> OutOfFuel) ->
  exists resp,
    optimize new_RoutingIndexManager SolveWithParameters fuel data = Returned resp.
Proof.
  intros Hm Hlib. unfold optimize, optimize_body.
  destruct (new_RoutingIndexManager _ _ _ _) as [manager_|e|] eqn:Em;
    cbn [bind try_except]; [|eauto|congruence].
  destruct (Hlib manager_ eq_refl) as [Hfuel Hs].
  destruct (SolveWithParameters _ _) as [[solution|]|e|] eqn:Es;
    cbn [bind try_except]; [|eauto|eauto|congruence].
  set (routing := build_routing data manager_) in *.
  pose proof (solver_sound _ _ _ Es) as Hsat.
  destruct (build_routing_fields manager_ data) as (Hmg & _). fold routing in Hmg.
  destruct (Forall2_exists_list
              (fun v r => vehicle_route routing solution fuel v = Returned r)
              (seq 0 (List.length (drivers data)))) as [rs Hrs].
  { intros v Hv. apply in_seq in Hv.
    destruct (solution_route routing solution Hsat v) as (p & Hp & _);
      [rewrite Hmg, (manager_vehicles _ _ _ _ _ Em); lia|].
    exists (map (visit routing solution) p).
    apply (vehicle_route_path routing solution (GetNumberOfIndices (manager routing)));
      [now rewrite Hmg | exact Hp]. }
  unfold parse_solution.
  rewrite (parse_vehicles_kept routing solution (drivers data) fuel _
             (drivers data) rs []); [cbn [bind try_except]; eauto | | exact Hrs].
  apply (Forall2_seq_nth_error _ (drivers data) 0). intros v d Hv.
  now apply getitem_nat.
Qed.

End Rejections.

(* ------------------------------------------------------------------ *)
(** ** These properties on the concrete instance *)

Lemma time_callback_square_witness :
  exists row t,
    nth_error (time_matrix ScenarioA.request_A) 1 = Some row
    /\ nth_error row 2 = Some t
    /\ time_callback ScenarioA.manager_A (time_matrix ScenarioA.request_A) 1 2
       = Returned t.
Proof.
  refine (time_callback_square ScenarioA.manager_A (time_matrix ScenarioA.request_A)
            1 2 _ _ _).
  - repeat first [apply Forall_nil | apply Forall_cons]; reflexivity.
  - cbn. lia.
  - cbn. lia.
Defined.

Lemma time_callback_out_of_range_raises_witness :
  time_callback ScenarioA.manager_A [[0; 1]; [2]] 1 1 = Raised "list index out of range".
Proof.
  refine (time_callback_out_of_range_raises ScenarioA.manager_A [[0; 1]; [2]] 1 1 _).
  right. exists [2]. split; [reflexivity | cbn; lia].
Defined.

Lemma demand_callback_distinct_nodes_witness :
  demand_callback ScenarioA.manager_A [mkJob 1 2 3 1000; mkJob 5 6 2 2000] 0 = 0
  /\ demand_callback ScenarioA.manager_A [mkJob 1 2 3 1000; mkJob 5 6 2 2000] 2 = - 3.
Proof.
  split.
  - refine (proj1 (demand_callback_distinct_nodes ScenarioA.manager_A
                     [mkJob 1 2 3 1000; mkJob 5 6 2 2000] 0) _).
    intros job [<- | [<- | []]]; cbn; split; discriminate.
  - refine (proj2 (proj2 (demand_callback_distinct_nodes ScenarioA.manager_A
                            [mkJob 1 2 3 1000; mkJob 5 6 2 2000] 2)
                         _ (mkJob 1 2 3 1000) (or_introl eq_refl)) eq_refl).
    repeat constructor; cbn; intuition discriminate.
Defined.

Lemma optimize_response_forms_witness :
  (exists routes, mkResponse (RoutesBody [ScenarioA.entry_A]) 200
                  = mkResponse (RoutesBody routes) 200)
  \/ mkResponse (RoutesBody [ScenarioA.entry_A]) 200
     = mkResponse (ErrorBody no_solution_message) 400
  \/ (exists e, mkResponse (RoutesBody [ScenarioA.entry_A]) 200
                = mkResponse (ErrorBody e) 500).
Proof.
  refine (optimize_response_forms
            ScenarioA.new_manager (ScenarioA.candidate_solver ScenarioA.assignment_A)
            4 ScenarioA.request_A _ _).
  vm_compute. reflexivity.
Defined.

Lemma library_exception_reported_witness :
  optimize ScenarioA.new_manager (ScenarioA.candidate_solver ScenarioA.assignment_A)
           4 ScenarioA.request_empty
  = Returned (mkResponse (ErrorBody "unsupported size") 500).
Proof.
  refine (library_exception_reported
            ScenarioA.new_manager (ScenarioA.candidate_solver ScenarioA.assignment_A)
            4 ScenarioA.request_empty "unsupported size" _).
  left. reflexivity.
Defined.


Lemma success_routes_come_from_drivers_witness :
  (List.length [ScenarioA.entry_A] <= List.length (drivers ScenarioA.request_A))%nat
  /\ forall e, In e [ScenarioA.entry_A] ->
       (2 < List.length (route e))%nat
       /\ exists driver,
            In driver (drivers ScenarioA.request_A)
            /\ driver_id e = id driver
            /\ driver_name e = name driver
            /\ driver_phone e = phone driver.
Proof.
  refine (success_routes_come_from_drivers
            ScenarioA.new_manager (ScenarioA.candidate_solver ScenarioA.assignment_A)
            4 ScenarioA.request_A [ScenarioA.entry_A] _).
  vm_compute. reflexivity.
Defined.

Lemma success_routes_follow_travel_times_witness :
  (forall s, In s (route ScenarioA.entry_A) -> 0 <= arrival_time s <= 86400)
  /\ forall k s1 s2,
       nth_error (route ScenarioA.entry_A) k = Some s1 ->
       nth_error (route ScenarioA.entry_A) (S k) = Some s2 ->
       exists t,
         travel_time (time_matrix ScenarioA.request_A) (node s1) (node s2) = Returned t
         /\ arrival_time s1 + t <= arrival_time s2 <= arrival_time s1 + t + 1800.
Proof.
  refine (success_routes_follow_travel_times
            ScenarioA.new_manager (ScenarioA.candidate_solver ScenarioA.assignment_A)
            new_manager_vehicles (candidate_solver_sound ScenarioA.assignment_A)
            4 ScenarioA.request_A [ScenarioA.entry_A] ScenarioA.entry_A _ _).
  - vm_compute. reflexivity.
  - now left.
Defined.

Lemma success_routes_within_shift_witness :
  exists driver first rest,
    In driver (drivers ScenarioA.request_A)
    /\ ScenarioA.entry_A = tagged (driver, first :: rest)
    /\ arrival_time first = shift_start driver
    /\ arrival_time (last rest first) <= shift_end driver.
Proof.
  refine (success_routes_within_shift
            ScenarioA.new_manager (ScenarioA.candidate_solver ScenarioA.assignment_A)
            new_manager_vehicles (candidate_solver_sound ScenarioA.assignment_A)
            4 ScenarioA.request_A [ScenarioA.entry_A] ScenarioA.entry_A _ _).
  - vm_compute. reflexivity.
  - now left.
Defined.

Lemma pickup_outside_every_shift_rejected_witness :
  optimize ScenarioA.new_manager (ScenarioA.candidate_solver ScenarioA.assignment_A)
           4 ScenarioA.request_B
  = Returned (mkResponse (ErrorBody no_solution_message) 400).
Proof.
  refine (pickup_outside_every_shift_rejected
            ScenarioA.new_manager (ScenarioA.candidate_solver ScenarioA.assignment_A)
            new_manager_vehicles (candidate_solver_sound ScenarioA.assignment_A)
            4 ScenarioA.request_B ScenarioA.manager_A (mkJob 1 2 1 50000) None
            _ _ _ _ _ _).
  - reflexivity.
  - repeat first [apply Forall_nil | apply Forall_cons]; cbn beta; lia.
  - now left.
  - cbn. lia.
  - intros driver [<- | []]. cbn. lia.
  - vm_compute. reflexivity.
Defined.


Lemma inverted_shift_rejected_witness :
  optimize ScenarioA.new_manager (ScenarioA.candidate_solver ScenarioA.assignment_A)
           4 ScenarioA.request_inverted
  = Returned (mkResponse (ErrorBody no_solution_message) 400).
Proof.
  refine (inverted_shift_rejected
            ScenarioA.new_manager (ScenarioA.candidate_solver ScenarioA.assignment_A)
            new_manager_vehicles (candidate_solver_sound ScenarioA.assignment_A)
            4 ScenarioA.request_inverted ScenarioA.manager_A
            (mkDriver "d1" "Ayse" "555" 0 0 4 2000 1500) None _ _ _ _ _).
  - reflexivity.
  - repeat first [apply Forall_nil | apply Forall_cons]; cbn beta; lia.
  - now left.
  - cbn. lia.
  - vm_compute. reflexivity.
Defined.

Lemma overloaded_index_rejected_witness :
  optimize ScenarioA.new_manager (ScenarioA.candidate_solver ScenarioA.assignment_A)
           4 ScenarioA.request_overload
  = Returned (mkResponse (ErrorBody no_solution_message) 400).
Proof.
  refine (overloaded_index_rejected
            ScenarioA.new_manager (ScenarioA.candidate_solver ScenarioA.assignment_A)
            new_manager_vehicles (candidate_solver_sound ScenarioA.assignment_A)
            4 ScenarioA.request_overload ScenarioA.manager_A 1 None _ _ _ _ _).
  - reflexivity.
  - cbn. lia.
  - reflexivity.
  - intros driver [<- | []]. cbn. lia.
  - vm_compute. reflexivity.
Defined.

Lemma optimize_answers_witness :
  exists resp,
    optimize ScenarioA.new_manager (ScenarioA.candidate_solver ScenarioA.assignment_A)
             4 ScenarioA.request_A = Returned resp.
Proof.
  refine (optimize_answers
            ScenarioA.new_manager (ScenarioA.candidate_solver ScenarioA.assignment_A)
            new_manager_vehicles (candidate_solver_sound ScenarioA.assignment_A)
            4 ScenarioA.request_A _ _).
  - discriminate.
  - intros manager_ [= <-]. split; [cbn; lia | discriminate].
Defined.

(* ------------------------------------------------------------------ *)
(** ** Every job is served in a success response *)

Lemma path_from_last_end (r : RoutingModel) (a : Assignment) (fuel : nat) :
  forall (i : Z) (p : list Z),
    path_from fuel r a i = Some p -> IsEnd r (last p i) = true.
Proof.
  induction fuel as [|fuel IH]; intros i p; cbn [path_from]; [discriminate|].
  destruct (IsEnd r i) eqn:Ei.
  - now intros [= <-].
  - destruct (path_from fuel r a (NextVar a i)) as [q|] eqn:Hq; cbn [option_map];
      [|discriminate].
    intros [= <-]. destruct (path_from_head _ _ _ _ _ Hq) as [q' ->].
    change (IsEnd r (last (NextVar a i :: q') i) = true).
    rewrite (last_nonempty_default q' _ i (NextVar a i)). now apply IH.
Qed.

Lemma two_stops_at_least {A : Type} (l : list A) (x d : A) :
  In x l -> last l d <> x -> (2 <= List.length l)%nat.
Proof.
  destruct l as [|y [|z l]]; cbn [In last List.length]; intros Hin Hlast.
  - destruct Hin.
  - destruct Hin as [-> | []]. now destruct Hlast.
  - lia.
Qed.

(** The loop over the vehicles reads every vehicle's route and keeps every
    route longer than 2. *)
Lemma parse_vehicles_complete
    (r : RoutingModel) (a : Assignment) (drivers_ : list Driver) (fuel : nat)
    (vs : list nat) :
  forall (acc routes : list RouteEntry),
    parse_vehicles r a drivers_ fuel vs acc = Returned routes ->
    forall v, In v vs ->
      exists rt,
        vehicle_route r a fuel v = Returned rt
        /\ ((2 < List.length rt)%nat ->
            exists d, nth_error drivers_ v = Some d /\ In (tagged (d, rt)) routes).
Proof.
  induction vs as [|v0 vs IH]; intros acc routes Hp v Hv; [destruct Hv|].
  cbn [parse_vehicles] in Hp.
  destruct (parse_vehicle r a drivers_ fuel acc v0) as [acc'| |] eqn:Hv0; cbn [bind] in Hp;
    try discriminate.
  destruct Hv as [<- | Hv]; [|now apply (IH _ _ Hp)].
  unfold parse_vehicle in Hv0.
  destruct (vehicle_route r a fuel v0) as [rt| |] eqn:Hrt; cbn [bind] in Hv0;
    try discriminate.
  exists rt. split; [reflexivity|]. intros Hlen. apply Nat.ltb_lt in Hlen.
  rewrite Hlen in Hv0.
  destruct (getitem drivers_ (Z.of_nat v0)) as [d| |] eqn:Hd; cbn [bind] in Hv0;
    try discriminate.
  injection Hv0 as <-. exists d. split; [now apply getitem_nat_inv|].
  destruct (parse_vehicles_returned _ _ _ _ _ _ _ Hp) as (new & -> & _).
  apply in_or_app. left. apply in_or_app. right. now left.
Qed.

Section Served.

Variable new_RoutingIndexManager :
  nat -> nat -> list Z -> list Z -> Outcome RoutingIndexManager.
Variable SolveWithParameters :
  RoutingModel -> RoutingSearchParameters -> Outcome (option Assignment).

(** The manager is built for the number of vehicles it is asked for. *)
Hypothesis manager_vehicles :
  forall n k starts ends m,
    new_RoutingIndexManager n k starts ends = Returned m ->
    GetNumberOfVehicles m = k.

(** An assignment the solver returns is a solution of the model. *)
Hypothesis solver_sound :
  forall r p a,
    SolveWithParameters r p = Returned (Some a) -> satisfies r a = true.

(** In a success response every job is served: when the pickup and dropoff
    indices of a job are indices of the manager and the pickup index is
    neither a start nor an end index, one route of the response holds a stop
    at the node of the pickup index, within 900 seconds of the pickup time,
    and a stop at the node of the dropoff index, no earlier. *)
Theorem success_serves_every_job
    (fuel : nat) (data : Request) (manager_ : RoutingIndexManager)
    (routes : list RouteEntry) (job : Job) :
  new_RoutingIndexManager (List.length (time_matrix data)) (List.length (drivers data))
    (map start_idx (drivers data)) (map end_idx (drivers data)) = Returned manager_ ->
  optimize new_RoutingIndexManager SolveWithParameters fuel data
  = Returned (mkResponse (RoutesBody routes) 200) ->
  In job (jobs data) ->
  let pickup_idx := NodeToIndex manager_ (pickup_node job) in
  let dropoff_idx := NodeToIndex manager_ (dropoff_node job) in
  0 <= pickup_idx < Z.of_nat (GetNumberOfIndices manager_) ->
  0 <= dropoff_idx < Z.of_nat (GetNumberOfIndices manager_) ->
  IsEnd (build_routing data manager_) pickup_idx = false ->
  (forall v, pickup_idx <> GetStartIndex manager_ v) ->
  exists e s_p s_d,
    In e routes /\ In s_p (route e) /\ In s_d (route e)
    /\ node s_p = IndexToNode manager_ pickup_idx
    /\ node s_d = IndexToNode manager_ dropoff_idx
    /\ pickup_time job - 900 <= arrival_time s_p <= pickup_time job + 900
    /\ arrival_time s_p <= arrival_time s_d.
Proof.
  intros Hm Hopt Hjob pickup_idx dropoff_idx Hpi Hdi Hnotend Hnotstart.
  destruct (optimize_success_inv _ _ _ _ _ Hopt) as (m' & solution & Hm' & Hs & Hp).
  rewrite Hm in Hm'. injection Hm' as <-.
  set (routing := build_routing data manager_) in *.
  pose proof (solver_sound _ _ _ Hs) as Hsat.
  destruct (build_routing_fields manager_ data) as (Hmg & _ & Hr & Hc).
  fold routing in Hmg, Hr, Hc.
  (* the vehicle of the pickup index, and its path *)
  destruct (solution_visited routing solution Hsat pickup_idx) as (v & p & Hv & Hpath & Hpin);
    [now rewrite Hmg|].
  destruct (solution_route routing solution Hsat v Hv) as (p0 & Hp0 & _ & Hveh & _).
  rewrite Hpath in Hp0. injection Hp0 as <-.
  (* the dropoff index is on the same path *)
  assert (Hcs : forall c, In c (job_constraints manager_ job) ->
                          constraint_holds solution c = true).
  { intros c Hcin. apply (solution_constraint routing solution Hsat).
    rewrite Hc. apply in_flat_map. now exists job. }
  pose proof (Hcs _ (or_introl eq_refl)) as Hsame. cbn in Hsame. apply Z.eqb_eq in Hsame.
  pose proof (Hcs _ (or_intror (or_introl eq_refl))) as Hord. cbn in Hord.
  apply Z.leb_le in Hord. fold pickup_idx dropoff_idx in Hsame, Hord.
  assert (Hdin : In dropoff_idx p).
  { destruct (solution_visited routing solution Hsat dropoff_idx)
      as (v' & p' & Hv' & Hpath' & Hdin); [now rewrite Hmg|].
    destruct (solution_route routing solution Hsat v' Hv') as (p1 & Hp1 & _ & Hveh' & _).
    rewrite Hpath' in Hp1. injection Hp1 as <-.
    assert (v' = v)
      by (apply Nat2Z.inj; rewrite <- (Hveh' _ Hdin), <- (Hveh _ Hpin); easy).
    subst v'. rewrite Hpath in Hpath'. now injection Hpath' as <-. }
  (* the path has more than two indices *)
  assert (Hlong : (2 < List.length p)%nat).
  { unfold path_of in Hpath. pose proof (path_from_last_end _ _ _ _ _ Hpath) as Hend.
    destruct (path_from_head _ _ _ _ _ Hpath) as [q Hq]. subst p.
    destruct Hpin as [Hstart | Hpin].
    - exfalso. apply (Hnotstart v). unfold Start in Hstart. now rewrite Hmg in Hstart.
    - cbn [List.length]. apply le_n_S.
      apply (two_stops_at_least q pickup_idx (Start routing v) Hpin).
      intros Hlast. rewrite <- (last_cons_self q) in Hend. congruence. }
  (* the route of the vehicle is in the response *)
  unfold parse_solution in Hp.
  assert (Hvin : In v (seq 0 (List.length (drivers data)))).
  { apply in_seq. rewrite Hmg, (manager_vehicles _ _ _ _ _ Hm) in Hv. lia. }
  destruct (parse_vehicles_complete _ _ _ _ _ _ _ Hp v Hvin) as (rt & Hrt & Hkept).
  destruct (vehicle_route_returned _ _ _ _ _ Hrt) as (p' & Hp' & ->).
  assert (p' = p).
  { unfold path_of in Hpath.
    apply (path_from_more_fuel _ _ _ (Nat.max fuel (GetNumberOfIndices (manager routing))))
      in Hp', Hpath; [|lia|lia]. congruence. }
  subst p'. destruct Hkept as (d & _ & Hin); [now rewrite length_map|].
  exists (tagged (d, map (visit routing solution) p)),
    (visit routing solution pickup_idx), (visit routing solution dropoff_idx).
  cbn [tagged route snd].
  split; [exact Hin|]. split; [now apply in_map|]. split; [now apply in_map|].
  unfold visit. cbn [node arrival_time]. rewrite Hmg.
  split; [reflexivity|]. split; [reflexivity|]. split; [|exact Hord].
  apply (solution_range routing solution Hsat). rewrite Hr.
  apply in_or_app. left. apply in_flat_map. exists job. split; [assumption | now left].
Qed.

End Served.

Lemma success_serves_every_job_witness :
  exists e s_p s_d,
    In e [ScenarioA.entry_A] /\ In s_p (route e) /\ In s_d (route e)
    /\ node s_p = 1 /\ node s_d = 2
    /\ 1000 - 900 <= arrival_time s_p <= 1000 + 900
    /\ arrival_time s_p <= arrival_time s_d.
Proof.
  refine (success_serves_every_job
            ScenarioA.new_manager (ScenarioA.candidate_solver ScenarioA.assignment_A)
            new_manager_vehicles (candidate_solver_sound ScenarioA.assignment_A)
            4 ScenarioA.request_A ScenarioA.manager_A [ScenarioA.entry_A]
            (mkJob 1 2 1 1000) _ _ _ _ _ _ _).
  - reflexivity.
  - vm_compute. reflexivity.
  - now left.
  - cbn. lia.
  - cbn. lia.
  - reflexivity.
  - intros v. cbn. discriminate.
Defined.
